(** * CarbonStream: the capacity, latency and carbon model of a three-tier
      video-delivery service

    The repository holds two variants of one script:
    - [Legacy]  : [carbon_stream.py], hardware parameters in built-in tables
                  and system parameters in module-level constants;
    - [Current] : [src/carbon_stream.py], hardware and system parameters
                  read from JSON configuration files.

    Numbers.  The scripts compute with Python [int] and [float] (and the
    [numpy.float64] that [np.ceil] returns).  [Legacy] and [Current] read
    their formulas over the exact rationals [Q], compared with [Qeq]
    ([==]); the statements proved on them are orderings, signs, clamps and
    error conditions.  Where the rounding of binary64 decides a statement
    (a ceiling of a quotient, an equality between two groupings),
    [Binary64] evaluates the same functions on Rocq's primitive floats.
    The command-line arguments declared [type=int] are integers [Z]. *)

From Stdlib Require Import QArith Qround Qminmax Lqa Lia ZArith List String Bool.
From Stdlib Require Floats Uint63.
Import ListNotations.
Open Scope Q_scope.

(** ** Python operations used by both scripts *)

(** The one exception the formulas can raise. *)
Inductive exn : Type := ZeroDivisionError.

Inductive result (A : Type) : Type :=
| Ok (a : A)
| Raise (e : exn).
Arguments Ok {A} a.
Arguments Raise {A} e.

Definition bind {A B : Type} (m : result A) (k : A -> result B) : result B :=
  match m with
  | Ok a => k a
  | Raise e => Raise e
  end.

Notation "x <- m ;; k" := (bind m (fun x => k))
  (at level 61, m at next level, right associativity).
Notation "' pat <- m ;; k" := (bind m (fun x => match x with pat => k end))
  (at level 61, pat pattern, m at next level, right associativity).

(** [a < b] as a test. *)
Definition Qlt_bool (a b : Q) : bool := negb (Qle_bool b a).

(** [a / b]: true division; a zero divisor raises.  (On a [numpy.float64]
    dividend numpy gives [inf] or [nan] with a warning instead of raising;
    neither is a rational, and the model reports the same exception.) *)
Definition py_div (a b : Q) : result Q :=
  if Qeq_bool b 0 then Raise ZeroDivisionError else Ok (a / b).

(** [a // b]: floor division; a zero divisor raises. *)
Definition py_floordiv (a b : Q) : result Q :=
  if Qeq_bool b 0 then Raise ZeroDivisionError
  else Ok (inject_Z (Qfloor (a / b))).

(** [np.ceil(x)]: the least integer not below [x], as a number. *)
Definition np_ceil (x : Q) : Q := inject_Z (Qceiling x).

(** [min(x, y, ...)]: the first argument is kept until a strictly smaller
    one is met. *)
Definition py_min (x : Q) (rest : list Q) : Q :=
  fold_left (fun m y => if Qlt_bool y m then y else m) rest x.

(** [sum(l)]: left to right, starting from 0. *)
Definition py_sum (l : list Q) : Q := fold_left Qplus l 0.

(** [l[i]] on the three-element cost lists. *)
Definition item (l : list Q) (i : nat) : Q := nth i l 0.

(** [365 * 24 * 60 * 60] *)
Definition seconds_in_a_year : Z := (365 * 24 * 60 * 60)%Z.

(** The four lists [calculate_individual_carbon_costs] returns:
    embodied, active, idle, replacement; each frontend, cache, backend. *)
Definition CarbonCosts : Type := (list Q * list Q * list Q * list Q)%type.

(** ** The legacy script: [carbon_stream.py] *)

Module Legacy.

(** The [choices] of [--frontend], [--cache] and [--backend]; they are the
    keys of the parameter tables. *)
Inductive frontend_hardware : Type := low_performance | high_performance.
Inductive cache_hardware : Type := DRAM | flash.
Inductive backend_hardware : Type := SSD | HDD | tape | glass.

Record AccessCost : Type := { read : Q; write : Q }.

(** A parameter class: seven tables keyed by the hardware label. *)
Record Params (H : Type) : Type := {
  LATENCY : H -> Q;
  THROUGHPUT : H -> Q;
  CARBON_COST : H -> Q;
  ACCESS_COST : H -> AccessCost;
  IDLE_COST : H -> Q;
  LIFESPAN_YEARS : H -> Q;
  SIZE : H -> Q
}.
Arguments LATENCY {H}.
Arguments THROUGHPUT {H}.
Arguments CARBON_COST {H}.
Arguments ACCESS_COST {H}.
Arguments IDLE_COST {H}.
Arguments LIFESPAN_YEARS {H}.
Arguments SIZE {H}.

Definition FrontendParams : Params frontend_hardware := {|
  LATENCY h := match h with
    | low_performance => 0.08 | high_performance => 0.00000001 end;
  THROUGHPUT h := match h with
    | low_performance => 5 | high_performance => 20 end;
  CARBON_COST h := match h with
    | low_performance => 0.16 | high_performance => 0.31 end;
  ACCESS_COST h := match h with
    | low_performance => {| read := 0.0000000004; write := 0.0000000004 |}
    | high_performance => {| read := 0.000000087; write := 0.000000087 |} end;
  IDLE_COST h := match h with
    | low_performance => 0.00000000013 | high_performance => 0.000000087 end;
  LIFESPAN_YEARS h := match h with
    | low_performance => 5 | high_performance => 10 end;
  SIZE h := match h with
    | low_performance => 3840 | high_performance => 4096 end
|}.

Definition CacheParams : Params cache_hardware := {|
  LATENCY h := match h with DRAM => 0.00000001 | flash => 0.08 end;
  THROUGHPUT h := match h with DRAM => 20 | flash => 5 end;
  CARBON_COST h := match h with DRAM => 0.31 | flash => 0.16 end;
  ACCESS_COST h := match h with
    | DRAM => {| read := 0.000000087; write := 0.000000087 |}
    | flash => {| read := 0.0000000004; write := 0.0000000004 |} end;
  IDLE_COST h := match h with DRAM => 0.000000087 | flash => 0.00000000013 end;
  LIFESPAN_YEARS h := match h with DRAM => 10 | flash => 5 end;
  SIZE h := match h with DRAM => 4096 | flash => 3840 end
|}.

Definition BackendParams : Params backend_hardware := {|
  LATENCY h := match h with
    | SSD => 0.08 | HDD => 4.16 | tape => 10000 | glass => 10 end;
  THROUGHPUT h := match h with
    | SSD => 5 | HDD => 0.27 | tape => 0.4 | glass => 0.21 end;
  CARBON_COST h := match h with
    | SSD => 0.16 | HDD => 0.0017 | tape => 0.00042 | glass => 0.0001 end;
  ACCESS_COST h := match h with
    | SSD => {| read := 0.0000000004; write := 0.00000000049 |}
    | HDD => {| read := 0.000000000073; write := 0.000000000073 |}
    | tape => {| read := 0.000000000002; write := 0.000000000002 |}
    | glass => {| read := 0.000000000001; write := 0.00000000001 |} end;
  IDLE_COST h := match h with
    | SSD => 0.00000000013 | HDD => 0.000000000041 | tape => 0 | glass => 0 end;
  LIFESPAN_YEARS h := match h with
    | SSD => 5 | HDD => 5 | tape => 30 | glass => 100 end;
  SIZE h := match h with
    | SSD => 3840 | HDD => 18000 | tape => 18000 | glass => 7000 end
|}.

(** The module-level constants.  The functions read them when they are
    called, so they take them as an environment [g]; [module_globals] holds
    the values the script assigns. *)
Record Globals : Type := {
  NETWORK_LATENCY : Q;
  PROCESSING_LATENCY : Q;
  READ_RATIO : Q;
  NUM_VIDEOS : Q;
  LOAD_CAPACITY : Q
}.

(** [WRITE_RATIO = 1 - READ_RATIO] *)
Definition WRITE_RATIO (g : Globals) : Q := 1 - READ_RATIO g.

Definition module_globals : Globals := {|
  NETWORK_LATENCY := 1;
  PROCESSING_LATENCY := 0.5;
  READ_RATIO := 0.7;
  NUM_VIDEOS := 10000000000;
  LOAD_CAPACITY := 0.7
|}.

Record ServerConfig : Type := {
  latency : Q;
  throughput : Q;
  carbon_cost : Q;
  active_cost : AccessCost;
  idle_cost : Q;
  lifespan_years : Q;
  size : Q
}.

(** [ServerConfig.__init__(self, hardware, params)] *)
Definition ServerConfig_init {H : Type} (hardware : H) (params : Params H)
  : ServerConfig := {|
  latency := LATENCY params hardware;
  throughput := THROUGHPUT params hardware;
  carbon_cost := CARBON_COST params hardware;
  active_cost := ACCESS_COST params hardware;
  idle_cost := IDLE_COST params hardware;
  lifespan_years := LIFESPAN_YEARS params hardware;
  size := SIZE params hardware
|}.

Definition calculate_average_latency (g : Globals)
    (frontend_config cache_config backend_config : ServerConfig)
    (cache_hit_rate : Q) : Q :=
  let frontend_latency :=
    latency frontend_config + NETWORK_LATENCY g + PROCESSING_LATENCY g in
  let cache_latency :=
    latency cache_config + NETWORK_LATENCY g + PROCESSING_LATENCY g in
  let backend_latency :=
    latency backend_config + NETWORK_LATENCY g + PROCESSING_LATENCY g in
  let amat :=
    cache_hit_rate * cache_latency
    + (1 - cache_hit_rate) * (cache_latency + backend_latency) in
  let avg_latency := frontend_latency + amat in
  avg_latency.

Definition calculate_total_throughput (config : ServerConfig) (num_servers : Q)
  : Q :=
  throughput config * num_servers.

Definition calculate_peak_throughput
    (frontend_total_throughput cache_total_throughput
     backend_total_throughput : Q) : Q :=
  py_min frontend_total_throughput
         [cache_total_throughput; backend_total_throughput].

Definition calculate_servers_needed (throughput config_throughput : Q)
  : result Q :=
  q <- py_div throughput config_throughput ;;
  Ok (np_ceil q).

Definition calculate_individual_carbon_costs (g : Globals)
    (frontend_config cache_config backend_config : ServerConfig)
    (num_frontend_servers num_cache_servers num_backend_servers : Q)
    (cache_hit_rate : Q) (simulation_years : Z) : result CarbonCosts :=
  let total_seconds := inject_Z (simulation_years * seconds_in_a_year) in
  let simulation_years := inject_Z simulation_years in

  let frontend_embodied_carbon_cost :=
    num_frontend_servers * carbon_cost frontend_config * size frontend_config in
  let cache_embodied_carbon_cost :=
    num_cache_servers * carbon_cost cache_config * size cache_config in
  let backend_embodied_carbon_cost :=
    num_backend_servers * carbon_cost backend_config * size backend_config in
  let embodied_carbon_costs :=
    [frontend_embodied_carbon_cost; cache_embodied_carbon_cost;
     backend_embodied_carbon_cost] in

  let frontend_active_cost :=
    (num_frontend_servers * read (active_cost frontend_config) * READ_RATIO g
     + num_frontend_servers * write (active_cost frontend_config) * WRITE_RATIO g)
    * size frontend_config * total_seconds * LOAD_CAPACITY g in
  let cache_active_cost :=
    (num_cache_servers * read (active_cost cache_config) * READ_RATIO g
     + num_cache_servers * write (active_cost cache_config) * WRITE_RATIO g)
    * size cache_config * total_seconds * LOAD_CAPACITY g in
  let backend_active_cost :=
    (num_backend_servers * read (active_cost backend_config) * READ_RATIO g
     + num_backend_servers * write (active_cost backend_config) * WRITE_RATIO g)
    * size backend_config * total_seconds * LOAD_CAPACITY g
    * (1 - cache_hit_rate) in
  let active_costs :=
    [frontend_active_cost; cache_active_cost; backend_active_cost] in

  let frontend_idle_cost :=
    num_frontend_servers * idle_cost frontend_config * size frontend_config
    * (1 - LOAD_CAPACITY g) * total_seconds in
  let cache_idle_cost :=
    num_cache_servers * idle_cost cache_config * size cache_config
    * (1 - LOAD_CAPACITY g) * total_seconds in
  let backend_idle_cost :=
    num_backend_servers * idle_cost backend_config * size backend_config
    * (1 - LOAD_CAPACITY g) * total_seconds * (1 - cache_hit_rate) in
  let idle_costs := [frontend_idle_cost; cache_idle_cost; backend_idle_cost] in

  frontend_replacement_cost <-
    (if Qlt_bool (lifespan_years frontend_config) simulation_years then
       num_replacements <-
         py_floordiv simulation_years (lifespan_years frontend_config) ;;
       Ok (num_replacements * num_frontend_servers
           * carbon_cost frontend_config * size frontend_config)
     else Ok 0) ;;
  cache_replacement_cost <-
    (if Qlt_bool (lifespan_years cache_config) simulation_years then
       num_replacements <-
         py_floordiv simulation_years (lifespan_years cache_config) ;;
       Ok (num_replacements * num_cache_servers
           * carbon_cost cache_config * size cache_config)
     else Ok 0) ;;
  backend_replacement_cost <-
    (if Qlt_bool (lifespan_years backend_config) simulation_years then
       num_replacements <-
         py_floordiv simulation_years (lifespan_years backend_config) ;;
       Ok (num_replacements * num_backend_servers
           * carbon_cost backend_config * size backend_config)
     else Ok 0) ;;
  let replacement_costs :=
    [frontend_replacement_cost; cache_replacement_cost;
     backend_replacement_cost] in

  Ok (embodied_carbon_costs, active_costs, idle_costs, replacement_costs).

Definition calculate_cache_hit_rate (g : Globals) (cache_config : ServerConfig)
    (num_cache_servers : Q) : result Q :=
  let total_cache_size := size cache_config * num_cache_servers in
  hit_rate <- py_div total_cache_size (NUM_VIDEOS g) ;;
  Ok (py_min 1 [hit_rate]).

(** The parsed command line. *)
Record Args : Type := {
  slo_latency : Z;
  slo_throughput : Z;
  frontend : frontend_hardware;
  cache : cache_hardware;
  backend : backend_hardware;
  simulation_years : Z;
  output : string
}.

(** The data row appended to the results file, column by column. *)
Record Row : Type := {
  row_slo_latency : Z;
  row_slo_throughput : Z;
  row_frontend : frontend_hardware;
  row_cache : cache_hardware;
  row_backend : backend_hardware;
  row_average_latency : Q;
  row_peak_throughput : Q;
  row_cumulative_carbon_cost : Q;
  row_frontend_servers : Q;
  row_cache_servers : Q;
  row_backend_servers : Q;
  row_cache_hit_rate : Q;
  row_embodied_cost : Q;
  row_active_cost : Q;
  row_idle_cost : Q;
  row_replacement_cost : Q;
  row_frontend_size : Q;
  row_cache_size : Q;
  row_backend_size : Q;
  row_total_size : Q;
  row_simulation_years : Z
}.

(** What one run produces: the values of the printed report, in the order
    of the [print] calls, and the data row. *)
Record Output : Type := {
  printed : list Q;
  row : Row
}.

Definition main (args : Args) : result Output :=
  let g := module_globals in
  let frontend_config := ServerConfig_init (frontend args) FrontendParams in
  let cache_config := ServerConfig_init (cache args) CacheParams in
  let backend_config := ServerConfig_init (backend args) BackendParams in

  num_frontend_servers <-
    calculate_servers_needed (inject_Z (slo_throughput args))
                             (throughput frontend_config) ;;
  num_cache_servers <-
    calculate_servers_needed (inject_Z (slo_throughput args))
                             (throughput cache_config) ;;
  num_backend_servers <-
    calculate_servers_needed (inject_Z (slo_throughput args))
                             (throughput backend_config) ;;

  cache_hit_rate <- calculate_cache_hit_rate g cache_config num_cache_servers ;;

  let frontend_total_throughput :=
    calculate_total_throughput frontend_config num_frontend_servers in
  let cache_total_throughput :=
    calculate_total_throughput cache_config num_cache_servers in
  let backend_total_throughput :=
    calculate_total_throughput backend_config num_backend_servers in

  let peak_throughput :=
    calculate_peak_throughput frontend_total_throughput cache_total_throughput
                              backend_total_throughput in

  let avg_latency :=
    calculate_average_latency g frontend_config cache_config backend_config
                              cache_hit_rate in

  '(embodied_carbon_costs, active_costs, idle_costs, replacement_costs) <-
    calculate_individual_carbon_costs g frontend_config cache_config
      backend_config num_frontend_servers num_cache_servers num_backend_servers
      cache_hit_rate (simulation_years args) ;;

  let embodied_carbon_cost := py_sum embodied_carbon_costs in
  let active_cost := py_sum active_costs in
  let idle_cost := py_sum idle_costs in
  let replacement_cost := py_sum replacement_costs in

  let frontend_cumulative_carbon_cost :=
    item embodied_carbon_costs 0 + item active_costs 0 + item idle_costs 0
    + item replacement_costs 0 in
  let cache_cumulative_carbon_cost :=
    item embodied_carbon_costs 1 + item active_costs 1 + item idle_costs 1
    + item replacement_costs 1 in
  let backend_cumulative_carbon_cost :=
    item embodied_carbon_costs 2 + item active_costs 2 + item idle_costs 2
    + item replacement_costs 2 in

  let cumulative_carbon_cost :=
    frontend_cumulative_carbon_cost + cache_cumulative_carbon_cost
    + backend_cumulative_carbon_cost in

  let total_storage_capacity :=
    num_frontend_servers * size frontend_config
    + num_cache_servers * size cache_config
    + num_backend_servers * size backend_config in

  Ok {|
    printed :=
      [avg_latency; peak_throughput; embodied_carbon_cost; active_cost;
       idle_cost; replacement_cost; inject_Z (simulation_years args);
       cumulative_carbon_cost; num_frontend_servers; num_cache_servers;
       num_backend_servers; cache_hit_rate];
    row := {|
      row_slo_latency := slo_latency args;
      row_slo_throughput := slo_throughput args;
      row_frontend := frontend args;
      row_cache := cache args;
      row_backend := backend args;
      row_average_latency := avg_latency;
      row_peak_throughput := peak_throughput;
      row_cumulative_carbon_cost := cumulative_carbon_cost;
      row_frontend_servers := num_frontend_servers;
      row_cache_servers := num_cache_servers;
      row_backend_servers := num_backend_servers;
      row_cache_hit_rate := cache_hit_rate;
      row_embodied_cost := embodied_carbon_cost;
      row_active_cost := active_cost;
      row_idle_cost := idle_cost;
      row_replacement_cost := replacement_cost;
      row_frontend_size := num_frontend_servers * size frontend_config;
      row_cache_size := num_cache_servers * size cache_config;
      row_backend_size := num_backend_servers * size backend_config;
      row_total_size := total_storage_capacity;
      row_simulation_years := simulation_years args
    |}
  |}.

End Legacy.

(** ** The current script: [src/carbon_stream.py] *)

Module Current.

(** [params['latency']] of the system file; [SystemConfig] holds it in
    [sys_latency], the name [latency] being the server's below. *)
Record SystemLatency : Type := { network : Q; processing : Q }.

Record SystemConfig : Type := {
  sys_latency : SystemLatency;
  storage_capacity : Q;
  active_idle_ratio : Q;
  read_write_ratio : Q;
  carbon_intensity : Q
}.

(** [params['embodied_cost']] and [params['power_consumption']] of a
    hardware file. *)
Record EmbodiedCost : Type := { initial : Q }.
Record ActivePower : Type := { read : Q; write : Q }.
Record PowerConsumption : Type := { active : ActivePower; idle : Q }.

Record ServerConfig : Type := {
  name : string;
  latency : Q;
  throughput : Q;
  embodied_cost : EmbodiedCost;
  power_consumption : PowerConsumption;
  lifespan : Q;
  capacity : Q
}.

Definition calculate_average_latency (system_config : SystemConfig)
    (frontend_config cache_config backend_config : ServerConfig)
    (cache_hit_rate : Q) : Q :=
  let frontend_latency :=
    latency frontend_config + network (sys_latency system_config)
    + processing (sys_latency system_config) in
  let cache_latency :=
    latency cache_config + network (sys_latency system_config)
    + processing (sys_latency system_config) in
  let backend_latency :=
    latency backend_config + network (sys_latency system_config)
    + processing (sys_latency system_config) in
  let cache_miss_rate := 1 - cache_hit_rate in
  let avg_latency :=
    frontend_latency + cache_latency + cache_miss_rate * backend_latency in
  avg_latency.

Definition calculate_total_throughput (config : ServerConfig) (num_servers : Q)
  : Q :=
  throughput config * num_servers.

Definition calculate_peak_throughput
    (frontend_total_throughput cache_total_throughput
     backend_total_throughput : Q) : Q :=
  py_min frontend_total_throughput
         [cache_total_throughput; backend_total_throughput].

Definition calculate_servers_needed (throughput config_throughput : Q)
  : result Q :=
  q <- py_div throughput config_throughput ;;
  Ok (np_ceil q).

Definition calculate_individual_carbon_costs (system_config : SystemConfig)
    (frontend_config cache_config backend_config : ServerConfig)
    (num_frontend_servers num_cache_servers num_backend_servers : Q)
    (cache_hit_rate : Q) (simulation_years : Z) : result CarbonCosts :=
  let total_seconds := inject_Z (simulation_years * seconds_in_a_year) in
  let simulation_years := inject_Z simulation_years in

  let frontend_embodied_carbon_cost :=
    num_frontend_servers * initial (embodied_cost frontend_config) in
  let cache_embodied_carbon_cost :=
    num_cache_servers * initial (embodied_cost cache_config) in
  let backend_embodied_carbon_cost :=
    num_backend_servers * initial (embodied_cost backend_config) in
  let embodied_carbon_costs :=
    [frontend_embodied_carbon_cost; cache_embodied_carbon_cost;
     backend_embodied_carbon_cost] in

  let frontend_active_cost :=
    (num_frontend_servers * read (active (power_consumption frontend_config))
       * carbon_intensity system_config * read_write_ratio system_config
     + num_frontend_servers * write (active (power_consumption frontend_config))
       * carbon_intensity system_config * (1 - read_write_ratio system_config))
    * total_seconds * active_idle_ratio system_config in
  let cache_active_cost :=
    (num_cache_servers * read (active (power_consumption cache_config))
       * carbon_intensity system_config * read_write_ratio system_config
     + num_cache_servers * write (active (power_consumption cache_config))
       * carbon_intensity system_config * (1 - read_write_ratio system_config))
    * total_seconds * active_idle_ratio system_config in
  let backend_active_cost :=
    (num_backend_servers * read (active (power_consumption backend_config))
       * carbon_intensity system_config * read_write_ratio system_config
     + num_backend_servers * write (active (power_consumption backend_config))
       * carbon_intensity system_config * (1 - read_write_ratio system_config))
    * total_seconds * active_idle_ratio system_config * (1 - cache_hit_rate) in
  let active_costs :=
    [frontend_active_cost; cache_active_cost; backend_active_cost] in

  let frontend_idle_cost :=
    num_frontend_servers * idle (power_consumption frontend_config)
    * carbon_intensity system_config * (1 - active_idle_ratio system_config)
    * total_seconds in
  let cache_idle_cost :=
    num_cache_servers * idle (power_consumption cache_config)
    * carbon_intensity system_config * (1 - active_idle_ratio system_config)
    * total_seconds in
  let backend_idle_cost :=
    num_backend_servers * idle (power_consumption backend_config)
    * carbon_intensity system_config * (1 - active_idle_ratio system_config)
    * total_seconds * (1 - cache_hit_rate) in
  let idle_costs := [frontend_idle_cost; cache_idle_cost; backend_idle_cost] in

  frontend_replacement_cost <-
    (if Qlt_bool (lifespan frontend_config) simulation_years then
       num_replacements <-
         py_floordiv simulation_years (lifespan frontend_config) ;;
       Ok (num_replacements * num_frontend_servers
           * initial (embodied_cost frontend_config))
     else Ok 0) ;;
  cache_replacement_cost <-
    (if Qlt_bool (lifespan cache_config) simulation_years then
       num_replacements <-
         py_floordiv simulation_years (lifespan cache_config) ;;
       Ok (num_replacements * num_cache_servers
           * initial (embodied_cost cache_config))
     else Ok 0) ;;
  backend_replacement_cost <-
    (if Qlt_bool (lifespan backend_config) simulation_years then
       num_replacements <-
         py_floordiv simulation_years (lifespan backend_config) ;;
       Ok (num_replacements * num_backend_servers
           * initial (embodied_cost backend_config))
     else Ok 0) ;;
  let replacement_costs :=
    [frontend_replacement_cost; cache_replacement_cost;
     backend_replacement_cost] in

  Ok (embodied_carbon_costs, active_costs, idle_costs, replacement_costs).

Definition calculate_cache_hit_rate (system_config : SystemConfig)
    (cache_config : ServerConfig) (num_cache_servers : Q) : result Q :=
  let total_cache_capacity := capacity cache_config * num_cache_servers in
  hit_rate <- py_div total_cache_capacity (storage_capacity system_config) ;;
  Ok (py_min 1 [hit_rate]).

(** The parsed command line.  The four paths are only handed to
    [load_config]; [main] below takes the loaded configurations. *)
Record Args : Type := {
  slo_latency : Z;
  slo_throughput : Z;
  system : string;
  frontend : string;
  cache : string;
  backend : string;
  simulation_years : Z;
  output : string
}.

(** The data row appended to the results file, column by column. *)
Record Row : Type := {
  row_slo_latency : Z;
  row_slo_throughput : Z;
  row_frontend : string;
  row_cache : string;
  row_backend : string;
  row_average_latency : Q;
  row_peak_throughput : Q;
  row_cumulative_carbon_cost : Q;
  row_frontend_servers : Q;
  row_cache_servers : Q;
  row_backend_servers : Q;
  row_cache_hit_rate : Q;
  row_embodied_cost : Q;
  row_active_cost : Q;
  row_idle_cost : Q;
  row_replacement_cost : Q;
  row_frontend_capacity : Q;
  row_cache_capacity : Q;
  row_backend_capacity : Q;
  row_total_capacity : Q;
  row_simulation_years : Z
}.

Record Output : Type := {
  printed : list Q;
  row : Row
}.

(** [main], from the point where the four configuration files have been
    loaded into [SystemConfig] and [ServerConfig] objects. *)
Definition main (args : Args) (system_config : SystemConfig)
    (frontend_config cache_config backend_config : ServerConfig)
  : result Output :=
  num_frontend_servers <-
    calculate_servers_needed (inject_Z (slo_throughput args))
                             (throughput frontend_config) ;;
  num_cache_servers <-
    calculate_servers_needed (inject_Z (slo_throughput args))
                             (throughput cache_config) ;;
  num_backend_servers <-
    calculate_servers_needed (inject_Z (slo_throughput args))
                             (throughput backend_config) ;;

  cache_hit_rate <-
    calculate_cache_hit_rate system_config cache_config num_cache_servers ;;

  let frontend_total_throughput :=
    calculate_total_throughput frontend_config num_frontend_servers in
  let cache_total_throughput :=
    calculate_total_throughput cache_config num_cache_servers in
  let backend_total_throughput :=
    calculate_total_throughput backend_config num_backend_servers in

  let peak_throughput :=
    calculate_peak_throughput frontend_total_throughput cache_total_throughput
                              backend_total_throughput in

  let avg_latency :=
    calculate_average_latency system_config frontend_config cache_config
                              backend_config cache_hit_rate in

  '(embodied_carbon_costs, active_costs, idle_costs, replacement_costs) <-
    calculate_individual_carbon_costs system_config frontend_config
      cache_config backend_config num_frontend_servers num_cache_servers
      num_backend_servers cache_hit_rate (simulation_years args) ;;

  let embodied_carbon_cost := py_sum embodied_carbon_costs in
  let active_cost := py_sum active_costs in
  let idle_cost := py_sum idle_costs in
  let replacement_cost := py_sum replacement_costs in

  let frontend_cumulative_carbon_cost :=
    item embodied_carbon_costs 0 + item active_costs 0 + item idle_costs 0
    + item replacement_costs 0 in
  let cache_cumulative_carbon_cost :=
    item embodied_carbon_costs 1 + item active_costs 1 + item idle_costs 1
    + item replacement_costs 1 in
  let backend_cumulative_carbon_cost :=
    item embodied_carbon_costs 2 + item active_costs 2 + item idle_costs 2
    + item replacement_costs 2 in

  let cumulative_carbon_cost :=
    frontend_cumulative_carbon_cost + cache_cumulative_carbon_cost
    + backend_cumulative_carbon_cost in

  let total_storage_capacity :=
    num_frontend_servers * capacity frontend_config
    + num_cache_servers * capacity cache_config
    + num_backend_servers * capacity backend_config in

  Ok {|
    printed :=
      [avg_latency; peak_throughput; embodied_carbon_cost; active_cost;
       idle_cost; replacement_cost; inject_Z (simulation_years args);
       cumulative_carbon_cost; num_frontend_servers; num_cache_servers;
       num_backend_servers; cache_hit_rate];
    row := {|
      row_slo_latency := slo_latency args;
      row_slo_throughput := slo_throughput args;
      row_frontend := name frontend_config;
      row_cache := name cache_config;
      row_backend := name backend_config;
      row_average_latency := avg_latency;
      row_peak_throughput := peak_throughput;
      row_cumulative_carbon_cost := cumulative_carbon_cost;
      row_frontend_servers := num_frontend_servers;
      row_cache_servers := num_cache_servers;
      row_backend_servers := num_backend_servers;
      row_cache_hit_rate := cache_hit_rate;
      row_embodied_cost := embodied_carbon_cost;
      row_active_cost := active_cost;
      row_idle_cost := idle_cost;
      row_replacement_cost := replacement_cost;
      row_frontend_capacity := num_frontend_servers * capacity frontend_config;
      row_cache_capacity := num_cache_servers * capacity cache_config;
      row_backend_capacity := num_backend_servers * capacity backend_config;
      row_total_capacity := total_storage_capacity;
      row_simulation_years := simulation_years args
    |}
  |}.

End Current.

(** ** Loading a configuration file: [load_config] in
       [src/carbon_stream.py] *)

Module Loader.

Local Open Scope string_scope.

(** The exceptions [load_config] meets: [open] on a missing file and
    [json.load] on a text that is not JSON. *)
Inductive io_exn : Type := FileNotFoundError | JSONDecodeError.

(** How a load ends: with the parsed content, with [exit(status)], or with
    an exception nothing catches. *)
Inductive loaded (A : Type) : Type :=
| Returned (content : A)
| SystemExit (status : Z)
| Uncaught (e : io_exn).
Arguments Returned {A} content.
Arguments SystemExit {A} status.
Arguments Uncaught {A} e.

(** The files that can be opened for reading, by path, with their text. *)
Definition Files : Type := string -> option string.

(** [if file_path:] on a string: the empty string is false. *)
Definition truthy (s : string) : bool :=
  match s with
  | EmptyString => false
  | String _ _ => true
  end.

(** [os.path.join] of the default paths, on a POSIX system. *)
Definition DEFAULT_SYSTEM_CONFIG : string := "configs/system/system.json".
Definition DEFAULT_FRONTEND_CONFIG : string :=
  "configs/frontend/low_performance/Samsung_PM9A3.json".
Definition DEFAULT_CACHE_CONFIG : string :=
  "configs/cache/DRAM/Samsung_PM9A3.json".
Definition DEFAULT_BACKEND_CONFIG : string :=
  "configs/backend/SSD/Samsung_PM9A3.json".

Section Load.

(** The values [json.load] returns, and [json.load] on a file's text: [None]
    is [json.JSONDecodeError]. *)
Variable JSON : Type.
Variable json_load : string -> option JSON.

(** [load_config(file_path, default_config)]: the lines printed and the
    way it ends. *)
Definition load_config (files : Files) (file_path default_config : string)
  : list string * loaded JSON :=
  if truthy file_path then
    match files file_path with
    | Some text =>
      match json_load text with
      | Some content => ([], Returned content)
      | None =>
        (["Error: Configuration file " ++ file_path
          ++ " is not a valid JSON file."], SystemExit 1)
      end
    | None =>
      (["Error: Configuration file " ++ file_path ++ " not found."],
       SystemExit 1)
    end
  else
    let line :=
      "No configuration file provided, using default: " ++ default_config in
    match files default_config with
    | Some text =>
      match json_load text with
      | Some content => ([line], Returned content)
      | None => ([line], Uncaught JSONDecodeError)
      end
    | None => ([line], Uncaught FileNotFoundError)
    end.

End Load.

End Loader.

(** ** Building the configuration objects: [SystemConfig.__init__] and
       [ServerConfig.__init__] in [src/carbon_stream.py] *)

Module Objects.

Local Open Scope string_scope.

(** The dict [json.load] builds for a JSON object, by key; the values are
    whatever the file holds. *)
Definition Dict (V : Type) : Type := string -> option V.

(** A constructor call: the object, or the [KeyError] of a missing key. *)
Inductive built (A : Type) : Type :=
| Built (object : A)
| KeyError (key : string).
Arguments Built {A} object.
Arguments KeyError {A} key.

(** [params[key]] *)
Definition getitem {V : Type} (params : Dict V) (key : string) : built V :=
  match params key with
  | Some value => Built value
  | None => KeyError key
  end.

Definition then_ {A B : Type} (m : built A) (k : A -> built B) : built B :=
  match m with
  | Built a => k a
  | KeyError key => KeyError key
  end.

(** The attributes, in the order the constructors assign them;
    [SystemConfig.latency] is [sys_latency] here as in [Current]. *)
Record SystemConfig (V : Type) : Type := {
  sys_latency : V;
  storage_capacity : V;
  active_idle_ratio : V;
  read_write_ratio : V;
  carbon_intensity : V
}.

Record ServerConfig (V : Type) : Type := {
  name : V;
  latency : V;
  throughput : V;
  embodied_cost : V;
  power_consumption : V;
  lifespan : V;
  capacity : V
}.

Definition SystemConfig_init {V : Type} (params : Dict V)
  : built (SystemConfig V) :=
  then_ (getitem params "latency") (fun latency =>
  then_ (getitem params "storage_capacity") (fun storage_capacity =>
  then_ (getitem params "active_idle_ratio") (fun active_idle_ratio =>
  then_ (getitem params "read_write_ratio") (fun read_write_ratio =>
  then_ (getitem params "carbon_intensity") (fun carbon_intensity =>
  Built {|
    sys_latency := latency;
    storage_capacity := storage_capacity;
    active_idle_ratio := active_idle_ratio;
    read_write_ratio := read_write_ratio;
    carbon_intensity := carbon_intensity
  |}))))).

Definition ServerConfig_init {V : Type} (params : Dict V)
  : built (ServerConfig V) :=
  then_ (getitem params "name") (fun name =>
  then_ (getitem params "latency") (fun latency =>
  then_ (getitem params "throughput") (fun throughput =>
  then_ (getitem params "embodied_cost") (fun embodied_cost =>
  then_ (getitem params "power_consumption") (fun power_consumption =>
  then_ (getitem params "lifespan") (fun lifespan =>
  then_ (getitem params "capacity") (fun capacity =>
  Built {|
    name := name;
    latency := latency;
    throughput := throughput;
    embodied_cost := embodied_cost;
    power_consumption := power_consumption;
    lifespan := lifespan;
    capacity := capacity
  |}))))))).

End Objects.

(** ** The plotting script: [src/plot_results.py] *)

Module PlotResults.

Local Open Scope string_scope.

(** What the script can raise before it plots: [int] on an argument that
    is no integer, and [pd.read_csv] on a file it cannot read. *)
Inductive plot_exn : Type := ValueError | ReadError.

(** One segment of a horizontal bar: [plt.barh(..., width, left=left)]. *)
Record Segment : Type := { left : Q; width : Q }.

(** One configuration's bar in the breakdown chart: its tick label and its
    four stacked segments. *)
Record StackedBar : Type := {
  tick : string;
  embodied_segment : Segment;
  active_segment : Segment;
  idle_segment : Segment;
  replacement_segment : Segment
}.

(** One configuration's own chart: the configuration named in the title,
    the four bar heights and the years of the title. *)
Record ConfigChart : Type := {
  chart_config : string;
  costs : list Q;
  chart_years : Z
}.

(** The numbers in the name of a saved figure:
    [..._slo_{slo_latency}ms_{slo_throughput}reqs_{simulation_years}years.png] *)
Record FileTag : Type := {
  tag_slo_latency : Z;
  tag_slo_throughput : Z;
  tag_simulation_years : Z
}.

Record Plots : Type := {
  lowest_cost_row : Current.Row;
  breakdown : list StackedBar;
  breakdown_title_years : Z;
  charts : list ConfigChart;
  saved_as : FileTag
}.

(** The two lines the script prints before [sys.exit(1)]: the usage, and
    [No results found for SLO Latency=... ms and SLO Throughput=... req/s]. *)
Inductive message : Type :=
| Usage
| NoResultsFound (slo_latency slo_throughput : Z).

Inductive outcome : Type :=
| Exit (status : Z) (printed : message)
| Raised (e : plot_exn)
| Plotted (p : Plots).

(** The row filter
    [(results['SLO Latency'] == slo_latency)
     & (results['SLO Throughput'] == slo_throughput)]. *)
Definition matches (slo_latency slo_throughput : Z) (row : Current.Row)
  : bool :=
  Z.eqb (Current.row_slo_latency row) slo_latency
  && Z.eqb (Current.row_slo_throughput row) slo_throughput.

(** [filtered_results.loc[filtered_results[...].idxmin()]]: the first row
    that holds the least cumulative carbon cost. *)
Fixpoint idxmin (best : Current.Row) (rest : list Current.Row)
  : Current.Row :=
  match rest with
  | [] => best
  | row :: rest' =>
    if Qlt_bool (Current.row_cumulative_carbon_cost row)
                (Current.row_cumulative_carbon_cost best)
    then idxmin row rest'
    else idxmin best rest'
  end.

(** [f"Frontend: {row['Frontend']} - Cache: {row['Cache']} - Backend: ..."] *)
Definition config_name (row : Current.Row) : string :=
  "Frontend: " ++ Current.row_frontend row
  ++ " - Cache: " ++ Current.row_cache row
  ++ " - Backend: " ++ Current.row_backend row.

(** The four [plt.barh] calls, read row by row: embodied from 0, active
    from the embodied cost, idle from [i+j], replacement from [i+j+k]. *)
Definition stacked_bar (row : Current.Row) : StackedBar :=
  let embodied := Current.row_embodied_cost row in
  let access := Current.row_active_cost row in
  let idle := Current.row_idle_cost row in
  let replacement := Current.row_replacement_cost row in {|
  tick := config_name row;
  embodied_segment := {| left := 0; width := embodied |};
  active_segment := {| left := embodied; width := access |};
  idle_segment := {| left := embodied + access; width := idle |};
  replacement_segment :=
    {| left := embodied + access + idle; width := replacement |}
|}.

Definition config_chart (row : Current.Row) : ConfigChart := {|
  chart_config := config_name row;
  costs := [Current.row_embodied_cost row; Current.row_active_cost row;
            Current.row_idle_cost row; Current.row_replacement_cost row];
  chart_years := Current.row_simulation_years row
|}.

Section Script.

(** [int(s)] on a command-line argument ([None]: [ValueError]) and
    [pd.read_csv] on a path ([None]: the file cannot be read), the rows in
    file order. *)
Variable py_int : string -> option Z.
Variable read_csv : string -> option (list Current.Row).

(** The script, on [sys.argv]. *)
Definition plot_results (argv : list string) : outcome :=
  match argv with
  | [_; arg1; arg2; arg3; arg4] =>
    match py_int arg1 with
    | None => Raised ValueError
    | Some slo_latency =>
    match py_int arg2 with
    | None => Raised ValueError
    | Some slo_throughput =>
    match py_int arg3 with
    | None => Raised ValueError
    | Some simulation_years =>
    match read_csv arg4 with
    | None => Raised ReadError
    | Some results =>
      let filtered_results :=
        filter (matches slo_latency slo_throughput) results in
      match filtered_results with
      | [] => Exit 1 (NoResultsFound slo_latency slo_throughput)
      | first :: others =>
        Plotted {|
          lowest_cost_row := idxmin first others;
          breakdown := map stacked_bar filtered_results;
          breakdown_title_years := Current.row_simulation_years first;
          charts := map config_chart filtered_results;
          saved_as := {|
            tag_slo_latency := slo_latency;
            tag_slo_throughput := slo_throughput;
            tag_simulation_years := simulation_years
          |}
        |}
      end
    end end end end
  | _ => Exit 1 Usage
  end.

End Script.

End PlotResults.

(** ** The scripts' arithmetic in binary64

    [Legacy] and [Current] above read the formulas over the rationals.
    Python's [float] and numpy's [float64] are IEEE 754 binary64 numbers,
    and so are Rocq's primitive floats: [Binary64] embeds the sizing, the
    throughput, the hit rate and the latency functions once more on them,
    operation by operation, so that a run of the scripts can be evaluated
    to the last bit.  A Python [int] that meets a float is converted
    exactly (the figures here are far below 2^53). *)

Set Warnings "-inexact-float".

Module Binary64.

Import Floats.
Local Open Scope float_scope.

(** An integer as a float, exact below 2^53. *)
Definition of_Z (z : Z) : float := of_uint63 (Uint63.of_Z z).

(** The rational a finite float stands for: mantissa times a power of 2. *)
Definition to_Q (x : float) : option Q :=
  match Prim2SF x with
  | S754_zero _ => Some 0%Q
  | S754_finite s m e =>
    let magnitude :=
      if (0 <=? e)%Z then inject_Z (Zpos m * 2 ^ e)
      else Qmake (Zpos m) (2 ^ Z.to_pos (- e)) in
    Some (if s then Qopp magnitude else magnitude)
  | _ => None
  end.

(** [a / b] on Python numbers: a zero divisor raises. *)
Definition py_div (a b : float) : result float :=
  if b =? 0 then Raise ZeroDivisionError else Ok (a / b).

(** [np.ceil(x)]: the least integer not below [x], computed on the exact
    value of [x]; a float with no fractional bits, an infinity and a NaN
    are returned as they are. *)
Definition np_ceil (x : float) : float :=
  match Prim2SF x with
  | S754_finite s m e =>
    if (0 <=? e)%Z then x
    else
      let q := (Zpos m / 2 ^ (- e))%Z in
      let whole := (Zpos m mod 2 ^ (- e) =? 0)%Z in
      if s then - of_Z q
      else of_Z (if whole then q else (q + 1)%Z)
  | _ => x
  end.

(** [min(x, y, ...)] *)
Definition py_min (x : float) (rest : list float) : float :=
  fold_left (fun m y => if y <? m then y else m) rest x.

Module Legacy.

Definition NETWORK_LATENCY : float := 1.
Definition PROCESSING_LATENCY : float := 0.5.
Definition NUM_VIDEOS : float := 10000000000.

Record AccessCost : Type := { read : float; write : float }.

Record ServerConfig : Type := {
  latency : float;
  throughput : float;
  carbon_cost : float;
  active_cost : AccessCost;
  idle_cost : float;
  lifespan_years : float;
  size : float
}.

(** [ServerConfig('low_performance', FrontendParams)],
    [ServerConfig('DRAM', CacheParams)] and
    [ServerConfig('glass', BackendParams)]. *)
Definition low_performance : ServerConfig := {|
  latency := 0.08;
  throughput := 5;
  carbon_cost := 0.16;
  active_cost := {| read := 0.0000000004; write := 0.0000000004 |};
  idle_cost := 0.00000000013;
  lifespan_years := 5;
  size := 3840
|}.

Definition DRAM : ServerConfig := {|
  latency := 0.00000001;
  throughput := 20;
  carbon_cost := 0.31;
  active_cost := {| read := 0.000000087; write := 0.000000087 |};
  idle_cost := 0.000000087;
  lifespan_years := 10;
  size := 4096
|}.

Definition glass : ServerConfig := {|
  latency := 10;
  throughput := 0.21;
  carbon_cost := 0.0001;
  active_cost := {| read := 0.000000000001; write := 0.00000000001 |};
  idle_cost := 0;
  lifespan_years := 100;
  size := 7000
|}.

Definition calculate_average_latency
    (frontend_config cache_config backend_config : ServerConfig)
    (cache_hit_rate : float) : float :=
  let frontend_latency :=
    latency frontend_config + NETWORK_LATENCY + PROCESSING_LATENCY in
  let cache_latency :=
    latency cache_config + NETWORK_LATENCY + PROCESSING_LATENCY in
  let backend_latency :=
    latency backend_config + NETWORK_LATENCY + PROCESSING_LATENCY in
  let amat :=
    cache_hit_rate * cache_latency
    + (1 - cache_hit_rate) * (cache_latency + backend_latency) in
  let avg_latency := frontend_latency + amat in
  avg_latency.

Definition calculate_total_throughput (config : ServerConfig)
    (num_servers : float) : float :=
  throughput config * num_servers.

Definition calculate_peak_throughput
    (frontend_total_throughput cache_total_throughput
     backend_total_throughput : float) : float :=
  py_min frontend_total_throughput
         [cache_total_throughput; backend_total_throughput].

Definition calculate_servers_needed (throughput config_throughput : float)
  : result float :=
  q <- py_div throughput config_throughput ;;
  Ok (np_ceil q).

(** In [main] the server count is a [numpy.float64], so the division
    follows IEEE 754 and raises nothing. *)
Definition calculate_cache_hit_rate (cache_config : ServerConfig)
    (num_cache_servers : float) : float :=
  let total_cache_size := size cache_config * num_cache_servers in
  let hit_rate := total_cache_size / NUM_VIDEOS in
  py_min 1 [hit_rate].

End Legacy.

Module Current.

Record SystemLatency : Type := { network : float; processing : float }.

Record SystemConfig : Type := {
  sys_latency : SystemLatency;
  storage_capacity : float;
  active_idle_ratio : float;
  read_write_ratio : float;
  carbon_intensity : float
}.

Record EmbodiedCost : Type := { initial : float }.
Record ActivePower : Type := { read : float; write : float }.
Record PowerConsumption : Type := { active : ActivePower; idle : float }.

Record ServerConfig : Type := {
  name : string;
  latency : float;
  throughput : float;
  embodied_cost : EmbodiedCost;
  power_consumption : PowerConsumption;
  lifespan : float;
  capacity : float
}.

Definition calculate_average_latency (system_config : SystemConfig)
    (frontend_config cache_config backend_config : ServerConfig)
    (cache_hit_rate : float) : float :=
  let frontend_latency :=
    latency frontend_config + network (sys_latency system_config)
    + processing (sys_latency system_config) in
  let cache_latency :=
    latency cache_config + network (sys_latency system_config)
    + processing (sys_latency system_config) in
  let backend_latency :=
    latency backend_config + network (sys_latency system_config)
    + processing (sys_latency system_config) in
  let cache_miss_rate := 1 - cache_hit_rate in
  let avg_latency :=
    frontend_latency + cache_latency + cache_miss_rate * backend_latency in
  avg_latency.

Definition calculate_total_throughput (config : ServerConfig)
    (num_servers : float) : float :=
  throughput config * num_servers.

Definition calculate_peak_throughput
    (frontend_total_throughput cache_total_throughput
     backend_total_throughput : float) : float :=
  py_min frontend_total_throughput
         [cache_total_throughput; backend_total_throughput].

Definition calculate_servers_needed (throughput config_throughput : float)
  : result float :=
  q <- py_div throughput config_throughput ;;
  Ok (np_ceil q).

Definition calculate_cache_hit_rate (system_config : SystemConfig)
    (cache_config : ServerConfig) (num_cache_servers : float) : float :=
  let total_cache_capacity := capacity cache_config * num_cache_servers in
  let hit_rate := total_cache_capacity / storage_capacity system_config in
  py_min 1 [hit_rate].

(** Configuration files for the evaluations below: a system file with the
    legacy constants; hardware files with the figures of the legacy
    entries; and a frontend whose [throughput] is 52.63157894736842. *)
Definition system_file : SystemConfig := {|
  sys_latency := {| network := 1; processing := 0.5 |};
  storage_capacity := 10000000000;
  active_idle_ratio := 0.7;
  read_write_ratio := 0.7;
  carbon_intensity := 0.0000001
|}.

Definition hardware_file (n : string) (l t c : float) : ServerConfig := {|
  name := n;
  latency := l;
  throughput := t;
  embodied_cost := {| initial := 600 |};
  power_consumption :=
    {| active := {| read := 6.5; write := 6.5 |}; idle := 5 |};
  lifespan := 5;
  capacity := c
|}.

Definition frontend_file : ServerConfig :=
  hardware_file "frontend" 0.08 52.63157894736842 3840.
Definition cache_file : ServerConfig :=
  hardware_file "cache" 0.00000001 20 4096.
Definition backend_file : ServerConfig :=
  hardware_file "backend" 10 5 7000.

End Current.

End Binary64.

(** ** Vocabulary of the statements, and sample inputs *)

(** Both scripts add network and processing latency to a tier's own. *)
Definition legacy_effective_latency (g : Legacy.Globals)
    (config : Legacy.ServerConfig) : Q :=
  Legacy.latency config + Legacy.NETWORK_LATENCY g
  + Legacy.PROCESSING_LATENCY g.

Definition current_effective_latency (system_config : Current.SystemConfig)
    (config : Current.ServerConfig) : Q :=
  Current.latency config
  + Current.network (Current.sys_latency system_config)
  + Current.processing (Current.sys_latency system_config).


Definition map_result {A B : Type} (f : A -> B) (m : result A) : result B :=
  match m with
  | Ok a => Ok (f a)
  | Raise e => Raise e
  end.

(** The same command line with another [--slo_latency]. *)
Definition legacy_with_slo_latency (l : Z) (args : Legacy.Args)
  : Legacy.Args := {|
  Legacy.slo_latency := l;
  Legacy.slo_throughput := Legacy.slo_throughput args;
  Legacy.frontend := Legacy.frontend args;
  Legacy.cache := Legacy.cache args;
  Legacy.backend := Legacy.backend args;
  Legacy.simulation_years := Legacy.simulation_years args;
  Legacy.output := Legacy.output args
|}.

Definition current_with_slo_latency (l : Z) (args : Current.Args)
  : Current.Args := {|
  Current.slo_latency := l;
  Current.slo_throughput := Current.slo_throughput args;
  Current.system := Current.system args;
  Current.frontend := Current.frontend args;
  Current.cache := Current.cache args;
  Current.backend := Current.backend args;
  Current.simulation_years := Current.simulation_years args;
  Current.output := Current.output args
|}.

(** The same output with another first column; the report and the twenty
    other columns are kept. *)
Definition legacy_output_with_slo_latency (l : Z) (o : Legacy.Output)
  : Legacy.Output :=
  let r := Legacy.row o in {|
  Legacy.printed := Legacy.printed o;
  Legacy.row := {|
    Legacy.row_slo_latency := l;
    Legacy.row_slo_throughput := Legacy.row_slo_throughput r;
    Legacy.row_frontend := Legacy.row_frontend r;
    Legacy.row_cache := Legacy.row_cache r;
    Legacy.row_backend := Legacy.row_backend r;
    Legacy.row_average_latency := Legacy.row_average_latency r;
    Legacy.row_peak_throughput := Legacy.row_peak_throughput r;
    Legacy.row_cumulative_carbon_cost := Legacy.row_cumulative_carbon_cost r;
    Legacy.row_frontend_servers := Legacy.row_frontend_servers r;
    Legacy.row_cache_servers := Legacy.row_cache_servers r;
    Legacy.row_backend_servers := Legacy.row_backend_servers r;
    Legacy.row_cache_hit_rate := Legacy.row_cache_hit_rate r;
    Legacy.row_embodied_cost := Legacy.row_embodied_cost r;
    Legacy.row_active_cost := Legacy.row_active_cost r;
    Legacy.row_idle_cost := Legacy.row_idle_cost r;
    Legacy.row_replacement_cost := Legacy.row_replacement_cost r;
    Legacy.row_frontend_size := Legacy.row_frontend_size r;
    Legacy.row_cache_size := Legacy.row_cache_size r;
    Legacy.row_backend_size := Legacy.row_backend_size r;
    Legacy.row_total_size := Legacy.row_total_size r;
    Legacy.row_simulation_years := Legacy.row_simulation_years r
  |}
|}.

Definition current_output_with_slo_latency (l : Z) (o : Current.Output)
  : Current.Output :=
  let r := Current.row o in {|
  Current.printed := Current.printed o;
  Current.row := {|
    Current.row_slo_latency := l;
    Current.row_slo_throughput := Current.row_slo_throughput r;
    Current.row_frontend := Current.row_frontend r;
    Current.row_cache := Current.row_cache r;
    Current.row_backend := Current.row_backend r;
    Current.row_average_latency := Current.row_average_latency r;
    Current.row_peak_throughput := Current.row_peak_throughput r;
    Current.row_cumulative_carbon_cost := Current.row_cumulative_carbon_cost r;
    Current.row_frontend_servers := Current.row_frontend_servers r;
    Current.row_cache_servers := Current.row_cache_servers r;
    Current.row_backend_servers := Current.row_backend_servers r;
    Current.row_cache_hit_rate := Current.row_cache_hit_rate r;
    Current.row_embodied_cost := Current.row_embodied_cost r;
    Current.row_active_cost := Current.row_active_cost r;
    Current.row_idle_cost := Current.row_idle_cost r;
    Current.row_replacement_cost := Current.row_replacement_cost r;
    Current.row_frontend_capacity := Current.row_frontend_capacity r;
    Current.row_cache_capacity := Current.row_cache_capacity r;
    Current.row_backend_capacity := Current.row_backend_capacity r;
    Current.row_total_capacity := Current.row_total_capacity r;
    Current.row_simulation_years := Current.row_simulation_years r
  |}
|}.

(** A configuration of the current script with the figures of a legacy
    one, the per-unit figures multiplied by the size. *)
Definition current_of_legacy (n : string) (c : Legacy.ServerConfig)
  : Current.ServerConfig := {|
  Current.name := n;
  Current.latency := Legacy.latency c;
  Current.throughput := Legacy.throughput c;
  Current.embodied_cost :=
    {| Current.initial := Legacy.carbon_cost c * Legacy.size c |};
  Current.power_consumption :=
    {| Current.active :=
         {| Current.read := Legacy.read (Legacy.active_cost c) * Legacy.size c;
            Current.write :=
              Legacy.write (Legacy.active_cost c) * Legacy.size c |};
       Current.idle := Legacy.idle_cost c * Legacy.size c |};
  Current.lifespan := Legacy.lifespan_years c;
  Current.capacity := Legacy.size c
|}.

Definition sample_system : Current.SystemConfig := {|
  Current.sys_latency := {| Current.network := 1; Current.processing := 0.5 |};
  Current.storage_capacity := 10000000000;
  Current.active_idle_ratio := 0.7;
  Current.read_write_ratio := 0.7;
  Current.carbon_intensity := 0.0000001
|}.

Definition legacy_frontend : Legacy.ServerConfig :=
  Legacy.ServerConfig_init Legacy.low_performance Legacy.FrontendParams.
Definition legacy_cache : Legacy.ServerConfig :=
  Legacy.ServerConfig_init Legacy.DRAM Legacy.CacheParams.
Definition legacy_backend : Legacy.ServerConfig :=
  Legacy.ServerConfig_init Legacy.HDD Legacy.BackendParams.

Definition legacy_backend_slow : Legacy.ServerConfig :=
  Legacy.ServerConfig_init Legacy.tape Legacy.BackendParams.

(** One step of a run: either the call raised, and so does the run, or it
    returned. *)
Ltac run_step :=
  match goal with
  | |- context [bind ?m _] =>
    destruct m as [?|?]; cbn [bind map_result]; [|try reflexivity; exact I]
  end.

(** Comparisons of numerals. *)
Ltac Qcompare := unfold Qle, Qlt, Qeq; simpl; lia.

Definition legacy_args : Legacy.Args := {|
  Legacy.slo_latency := 100;
  Legacy.slo_throughput := 1000;
  Legacy.frontend := Legacy.low_performance;
  Legacy.cache := Legacy.DRAM;
  Legacy.backend := Legacy.HDD;
  Legacy.simulation_years := 12;
  Legacy.output := "results.csv"
|}.

Definition current_args : Current.Args := {|
  Current.slo_latency := 100;
  Current.slo_throughput := 1000;
  Current.system := "system.json";
  Current.frontend := "frontend.json";
  Current.cache := "cache.json";
  Current.backend := "backend.json";
  Current.simulation_years := 12;
  Current.output := "results.csv"
|}.

(** Every entry of a cost list is at least 0. *)
Definition all_nonneg (l : list Q) : Prop := Forall (fun x => 0 <= x) l.

(** Hardware figures that are physically meaningful: costs and size not
    negative, lifespan positive. *)
Definition legacy_config_nonneg (c : Legacy.ServerConfig) : Prop :=
  0 <= Legacy.carbon_cost c /\
  0 <= Legacy.read (Legacy.active_cost c) /\
  0 <= Legacy.write (Legacy.active_cost c) /\
  0 <= Legacy.idle_cost c /\
  0 < Legacy.lifespan_years c /\
  0 <= Legacy.size c.

Definition current_config_nonneg (c : Current.ServerConfig) : Prop :=
  0 <= Current.initial (Current.embodied_cost c) /\
  0 <= Current.read (Current.active (Current.power_consumption c)) /\
  0 <= Current.write (Current.active (Current.power_consumption c)) /\
  0 <= Current.idle (Current.power_consumption c) /\
  0 < Current.lifespan c.

(** Ratios that are fractions of 1. *)
Definition legacy_globals_fractions (g : Legacy.Globals) : Prop :=
  (0 <= Legacy.READ_RATIO g /\ Legacy.READ_RATIO g <= 1) /\
  (0 <= Legacy.LOAD_CAPACITY g /\ Legacy.LOAD_CAPACITY g <= 1).

Definition current_system_fractions (s : Current.SystemConfig) : Prop :=
  (0 <= Current.read_write_ratio s /\ Current.read_write_ratio s <= 1) /\
  (0 <= Current.active_idle_ratio s /\ Current.active_idle_ratio s <= 1) /\
  0 <= Current.carbon_intensity s.

(** Every entry of a cost list is 0; a cost list is at most another one,
    entry by entry. *)
Definition all_zero (l : list Q) : Prop := Forall (fun x => x == 0) l.

Definition pointwise_le (l l' : list Q) : Prop := Forall2 Qle l l'.

(** A backend configuration whose file gives lifespan 0. *)
Definition broken_backend : Current.ServerConfig := {|
  Current.name := "broken";
  Current.latency := 4.16;
  Current.throughput := 0.27;
  Current.embodied_cost := {| Current.initial := 30.6 |};
  Current.power_consumption :=
    {| Current.active := {| Current.read := 6.5; Current.write := 6.5 |};
       Current.idle := 5 |};
  Current.lifespan := 0;
  Current.capacity := 18000
|}.

(** Sample results: a row of the results file with the given SLO, name and
    cost components, its cumulative cost their sum. *)
Definition sample_row (l t : Z) (n : string) (e a i r : Q) (y : Z)
  : Current.Row := {|
  Current.row_slo_latency := l;
  Current.row_slo_throughput := t;
  Current.row_frontend := n;
  Current.row_cache := n;
  Current.row_backend := n;
  Current.row_average_latency := 6;
  Current.row_peak_throughput := inject_Z t;
  Current.row_cumulative_carbon_cost := e + a + i + r;
  Current.row_frontend_servers := 1;
  Current.row_cache_servers := 1;
  Current.row_backend_servers := 1;
  Current.row_cache_hit_rate := 1;
  Current.row_embodied_cost := e;
  Current.row_active_cost := a;
  Current.row_idle_cost := i;
  Current.row_replacement_cost := r;
  Current.row_frontend_capacity := 1;
  Current.row_cache_capacity := 1;
  Current.row_backend_capacity := 1;
  Current.row_total_capacity := 3;
  Current.row_simulation_years := y
|}.

(** Four rows: A at 550; B and D tied at 400, B first; C cheaper but for
    another SLO latency. *)
Definition sample_results : list Current.Row :=
  [ sample_row 100 1000 "A" 500 30 20 0 10;
    sample_row 100 1000 "B" 300 40 10 50 12;
    sample_row 50 1000 "C" 10 1 1 0 10;
    sample_row 100 1000 "D" 350 40 10 0 10 ].

Definition sample_py_int (s : string) : option Z :=
  if String.eqb s "100" then Some 100%Z
  else if String.eqb s "1000" then Some 1000%Z
  else if String.eqb s "10" then Some 10%Z
  else if String.eqb s "12" then Some 12%Z
  else if String.eqb s "7" then Some 7%Z
  else None.

Definition sample_read_csv (path : string) : option (list Current.Row) :=
  if String.eqb path "results.csv" then Some sample_results else None.

(** Two outcomes of the plotting script that differ at most in the years
    written into the names of the saved figures. *)
Definition same_but_file_years (o o' : PlotResults.outcome) : Prop :=
  match o, o' with
  | PlotResults.Plotted p, PlotResults.Plotted p' =>
    PlotResults.lowest_cost_row p = PlotResults.lowest_cost_row p' /\
    PlotResults.breakdown p = PlotResults.breakdown p' /\
    PlotResults.breakdown_title_years p
    = PlotResults.breakdown_title_years p' /\
    PlotResults.charts p = PlotResults.charts p' /\
    PlotResults.tag_slo_latency (PlotResults.saved_as p)
    = PlotResults.tag_slo_latency (PlotResults.saved_as p') /\
    PlotResults.tag_slo_throughput (PlotResults.saved_as p)
    = PlotResults.tag_slo_throughput (PlotResults.saved_as p')
  | PlotResults.Exit status printed, PlotResults.Exit status' printed' =>
    status = status' /\ printed = printed'
  | PlotResults.Raised e, PlotResults.Raised e' => e = e'
  | _, _ => False
  end.

(** The keys the two constructors read, in order, and the first of a list
    of keys that a dict lacks. *)
Definition system_keys : list string :=
  ["latency"; "storage_capacity"; "active_idle_ratio"; "read_write_ratio";
   "carbon_intensity"]%string.

Definition server_keys : list string :=
  ["name"; "latency"; "throughput"; "embodied_cost"; "power_consumption";
   "lifespan"; "capacity"]%string.

Definition first_missing {V : Type} (params : Objects.Dict V)
    (keys : list string) : option string :=
  find (fun key => match params key with None => true | Some _ => false end)
       keys.

(** ** Facts about the Python operations *)

Lemma Qlt_bool_iff (a b : Q) : Qlt_bool a b = true <-> a < b.
Proof.
  unfold Qlt_bool. rewrite negb_true_iff.
  split; intro H.
  - apply Qnot_le_lt. intro Hle. apply Qle_bool_iff in Hle. congruence.
  - destruct (Qle_bool b a) eqn:E; [|reflexivity].
    apply Qle_bool_iff in E. exfalso. exact (Qlt_not_le _ _ H E).
Qed.

Lemma Qlt_bool_false_iff (a b : Q) : Qlt_bool a b = false <-> b <= a.
Proof.
  unfold Qlt_bool. rewrite negb_false_iff. apply Qle_bool_iff.
Qed.

Lemma Qeq_bool_false_iff (a b : Q) : Qeq_bool a b = false <-> ~ a == b.
Proof.
  split; intro H.
  - apply Qeq_bool_neq. exact H.
  - destruct (Qeq_bool a b) eqn:E; [|reflexivity].
    apply Qeq_bool_iff in E. contradiction.
Qed.

Lemma py_div_ok (a b : Q) : ~ b == 0 -> py_div a b = Ok (a / b).
Proof.
  intro H. unfold py_div. apply Qeq_bool_false_iff in H. now rewrite H.
Qed.

Lemma py_div_raise (a b : Q) : b == 0 -> py_div a b = Raise ZeroDivisionError.
Proof.
  intro H. unfold py_div. apply Qeq_bool_iff in H. now rewrite H.
Qed.

Lemma py_floordiv_ok (a b : Q) :
  ~ b == 0 -> py_floordiv a b = Ok (inject_Z (Qfloor (a / b))).
Proof.
  intro H. unfold py_floordiv. apply Qeq_bool_false_iff in H. now rewrite H.
Qed.

(** [min] of two and of three arguments is the mathematical minimum. *)
Lemma py_min_two (x y : Q) : py_min x [y] == Qmin x y.
Proof.
  unfold py_min; simpl.
  destruct (Qlt_bool y x) eqn:E.
  - apply Qlt_bool_iff in E. symmetry. apply Q.min_r. now apply Qlt_le_weak.
  - apply Qlt_bool_false_iff in E. symmetry. now apply Q.min_l.
Qed.

Lemma py_min_three (x y z : Q) : py_min x [y; z] == Qmin (Qmin x y) z.
Proof.
  unfold py_min; simpl.
  destruct (Qlt_bool y x) eqn:E1.
  - apply Qlt_bool_iff in E1.
    assert (Hm : Qmin x y == y) by (apply Q.min_r; now apply Qlt_le_weak).
    rewrite Hm. apply (py_min_two y z).
  - apply Qlt_bool_false_iff in E1.
    assert (Hm : Qmin x y == x) by now apply Q.min_l.
    rewrite Hm. apply (py_min_two x z).
Qed.

Lemma py_sum_three (a b c : Q) : py_sum [a; b; c] == a + b + c.
Proof. unfold py_sum; simpl. ring. Qed.

(** The defining bounds of the ceiling and of the floor. *)
Lemma np_ceil_bounds (x : Q) : np_ceil x - 1 < x /\ x <= np_ceil x.
Proof.
  unfold np_ceil. split.
  - generalize (Qceiling_lt x). unfold Z.sub. rewrite inject_Z_plus.
    change (inject_Z (- (1))) with (- (1)). intro H. exact H.
  - apply Qle_ceiling.
Qed.

Lemma Qfloor_bounds (x : Q) :
  inject_Z (Qfloor x) <= x /\ x < inject_Z (Qfloor x) + 1.
Proof.
  split.
  - apply Qfloor_le.
  - generalize (Qlt_floor x). rewrite inject_Z_plus. intro H. exact H.
Qed.

Lemma Qdiv_pos (t p : Q) : 0 < t -> 0 < p -> 0 < t / p.
Proof.
  intros Ht Hp. unfold Qdiv.
  apply Qmult_lt_0_compat; [exact Ht|]. now apply Qinv_lt_0_compat.
Qed.

Lemma Qceiling_pos (x : Q) : 0 < x -> (1 <= Qceiling x)%Z.
Proof.
  intro Hx.
  assert (H : 0 < inject_Z (Qceiling x)).
  { eapply Qlt_le_trans; [exact Hx|apply Qle_ceiling]. }
  rewrite <- (Zlt_Qlt 0) in H. lia.
Qed.

Lemma Qdiv_mult_cancel (t p : Q) : ~ p == 0 -> t / p * p == t.
Proof. intro Hp. field. exact Hp. Qed.

(** ** Capacity sizing *)

Lemma servers_needed_nonzero (t p : Q) :
  ~ p == 0 ->
  Legacy.calculate_servers_needed t p = Ok (np_ceil (t / p)) /\
  Current.calculate_servers_needed t p = Ok (np_ceil (t / p)).
Proof.
  intro Hp.
  unfold Legacy.calculate_servers_needed, Current.calculate_servers_needed.
  rewrite (py_div_ok t p Hp). split; reflexivity.
Qed.

Lemma servers_needed_zero (t p : Q) :
  p == 0 ->
  Legacy.calculate_servers_needed t p = Raise ZeroDivisionError /\
  Current.calculate_servers_needed t p = Raise ZeroDivisionError.
Proof.
  intro Hp.
  unfold Legacy.calculate_servers_needed, Current.calculate_servers_needed.
  rewrite (py_div_raise t p Hp). split; reflexivity.
Qed.

Lemma Qlt_0_neq (p : Q) : 0 < p -> ~ p == 0.
Proof. intros Hp E. rewrite E in Hp. exact (Qlt_irrefl 0 Hp). Qed.

(** The servers sized for throughput [t] carry it: [t <= ceil(t/p) * p]. *)
Lemma np_ceil_covers (t p : Q) : 0 < p -> t <= np_ceil (t / p) * p.
Proof.
  intro Hp.
  rewrite <- (Qdiv_mult_cancel t p (Qlt_0_neq p Hp)) at 1.
  apply Qmult_le_compat_r.
  - apply np_ceil_bounds.
  - now apply Qlt_le_weak.
Qed.



(** ** Throughput *)

(** C8.  In both scripts [calculate_peak_throughput] returns the minimum of
    its three arguments, a tier's aggregate is its per-server throughput
    times its server count, and aggregates 100, 50, 75 give peak 50. *)
Theorem peak_throughput_is_min :
  (forall a b c : Q,
     Legacy.calculate_peak_throughput a b c == Qmin (Qmin a b) c /\
     Current.calculate_peak_throughput a b c == Qmin (Qmin a b) c) /\
  (forall (config : Legacy.ServerConfig) (num_servers : Q),
     Legacy.calculate_total_throughput config num_servers
     = Legacy.throughput config * num_servers) /\
  (forall (config : Current.ServerConfig) (num_servers : Q),
     Current.calculate_total_throughput config num_servers
     = Current.throughput config * num_servers) /\
  Legacy.calculate_peak_throughput 100 50 75 = 50 /\
  Current.calculate_peak_throughput 100 50 75 = 50.
Proof.
  repeat split; try reflexivity.
  - apply py_min_three.
  - apply py_min_three.
Qed.

(** ** Average latency *)

(** The grouping of the legacy script reduces to that of the current one. *)
Lemma legacy_average_latency_closed_form (g : Legacy.Globals)
    (f c b : Legacy.ServerConfig) (h : Q) :
  Legacy.calculate_average_latency g f c b h ==
  legacy_effective_latency g f + legacy_effective_latency g c
  + (1 - h) * legacy_effective_latency g b.
Proof.
  unfold Legacy.calculate_average_latency, legacy_effective_latency. ring.
Qed.

Lemma current_average_latency_closed_form (s : Current.SystemConfig)
    (f c b : Current.ServerConfig) (h : Q) :
  Current.calculate_average_latency s f c b h ==
  current_effective_latency s f + current_effective_latency s c
  + (1 - h) * current_effective_latency s b.
Proof.
  unfold Current.calculate_average_latency, current_effective_latency. ring.
Qed.

(** C2, as amended.  Read over the rationals, with the same tier latencies,
    network latency, processing latency and hit rate, the legacy
    computation [frontend + (h * cache + (1 - h) * (cache + backend))] and
    the current computation [frontend + cache + (1 - h) * backend] are
    equal.  (In binary64 the two groupings round differently; the
    evaluation at the end of the file gives an input where the results
    differ.) *)
Theorem average_latency_variants_agree
    (g : Legacy.Globals) (s : Current.SystemConfig)
    (lf lc lb : Legacy.ServerConfig) (cf cc cb : Current.ServerConfig)
    (h : Q) :
  Legacy.NETWORK_LATENCY g == Current.network (Current.sys_latency s) ->
  Legacy.PROCESSING_LATENCY g == Current.processing (Current.sys_latency s) ->
  Legacy.latency lf == Current.latency cf ->
  Legacy.latency lc == Current.latency cc ->
  Legacy.latency lb == Current.latency cb ->
  Legacy.calculate_average_latency g lf lc lb h ==
  Current.calculate_average_latency s cf cc cb h.
Proof.
  intros Hn Hp Hf Hc Hb.
  rewrite legacy_average_latency_closed_form.
  rewrite current_average_latency_closed_form.
  unfold legacy_effective_latency, current_effective_latency.
  rewrite Hn, Hp, Hf, Hc, Hb. reflexivity.
Qed.

Lemma average_latency_variants_agree_witness :
  Legacy.calculate_average_latency Legacy.module_globals
    legacy_frontend legacy_cache legacy_backend 0.25 ==
  Current.calculate_average_latency sample_system
    (current_of_legacy "frontend" legacy_frontend)
    (current_of_legacy "cache" legacy_cache)
    (current_of_legacy "backend" legacy_backend) 0.25.
Proof.
  apply (average_latency_variants_agree Legacy.module_globals sample_system);
    reflexivity.
Defined.

(** C5.  In both scripts the average latency does not decrease when the
    backend's service latency grows, for a hit rate of at most 1 (the only
    ones [calculate_cache_hit_rate] returns), and does not increase when
    the hit rate grows, for a backend effective latency that is not
    negative; everything else is held fixed. *)
Theorem average_latency_monotone :
  (forall (g : Legacy.Globals) (f c b b' : Legacy.ServerConfig) (h : Q),
     h <= 1 ->
     Legacy.latency b <= Legacy.latency b' ->
     Legacy.calculate_average_latency g f c b h
     <= Legacy.calculate_average_latency g f c b' h) /\
  (forall (g : Legacy.Globals) (f c b : Legacy.ServerConfig) (h h' : Q),
     0 <= legacy_effective_latency g b ->
     h <= h' ->
     Legacy.calculate_average_latency g f c b h'
     <= Legacy.calculate_average_latency g f c b h) /\
  (forall (s : Current.SystemConfig) (f c b b' : Current.ServerConfig) (h : Q),
     h <= 1 ->
     Current.latency b <= Current.latency b' ->
     Current.calculate_average_latency s f c b h
     <= Current.calculate_average_latency s f c b' h) /\
  (forall (s : Current.SystemConfig) (f c b : Current.ServerConfig) (h h' : Q),
     0 <= current_effective_latency s b ->
     h <= h' ->
     Current.calculate_average_latency s f c b h'
     <= Current.calculate_average_latency s f c b h).
Proof.
  repeat split.
  - intros g f c b b' h Hh Hb.
    rewrite !legacy_average_latency_closed_form.
    unfold legacy_effective_latency. nra.
  - intros g f c b h h' Hb Hh.
    rewrite !legacy_average_latency_closed_form. nra.
  - intros s f c b b' h Hh Hb.
    rewrite !current_average_latency_closed_form.
    unfold current_effective_latency. nra.
  - intros s f c b h h' Hb Hh.
    rewrite !current_average_latency_closed_form. nra.
Qed.

Lemma average_latency_monotone_witness :
  Legacy.calculate_average_latency Legacy.module_globals
    legacy_frontend legacy_cache legacy_backend 0.25
  <= Legacy.calculate_average_latency Legacy.module_globals
    legacy_frontend legacy_cache legacy_backend_slow 0.25 /\
  Legacy.calculate_average_latency Legacy.module_globals
    legacy_frontend legacy_cache legacy_backend 0.75
  <= Legacy.calculate_average_latency Legacy.module_globals
    legacy_frontend legacy_cache legacy_backend 0.25 /\
  Current.calculate_average_latency sample_system
    (current_of_legacy "frontend" legacy_frontend)
    (current_of_legacy "cache" legacy_cache)
    (current_of_legacy "backend" legacy_backend) 0.25
  <= Current.calculate_average_latency sample_system
    (current_of_legacy "frontend" legacy_frontend)
    (current_of_legacy "cache" legacy_cache)
    (current_of_legacy "backend" legacy_backend_slow) 0.25 /\
  Current.calculate_average_latency sample_system
    (current_of_legacy "frontend" legacy_frontend)
    (current_of_legacy "cache" legacy_cache)
    (current_of_legacy "backend" legacy_backend) 0.75
  <= Current.calculate_average_latency sample_system
    (current_of_legacy "frontend" legacy_frontend)
    (current_of_legacy "cache" legacy_cache)
    (current_of_legacy "backend" legacy_backend) 0.25.
Proof.
  destruct average_latency_monotone as (H1 & H2 & H3 & H4).
  split; [|split; [|split]].
  - apply H1; Qcompare.
  - apply H2; Qcompare.
  - apply H3; Qcompare.
  - apply H4; Qcompare.
Defined.

(** ** Cache hit rate *)

Lemma hit_rate_clamp_bounds (x : Q) :
  0 <= x -> 0 <= py_min 1 [x] /\ py_min 1 [x] <= 1.
Proof.
  intro Hx. rewrite py_min_two. split.
  - apply Q.min_glb; [Qcompare | exact Hx].
  - apply Q.le_min_l.
Qed.

Lemma hit_rate_clamp_mono (x y : Q) : x <= y -> py_min 1 [x] <= py_min 1 [y].
Proof.
  intro H. rewrite !py_min_two. now apply Q.min_le_compat_l.
Qed.

Lemma Qdiv_nonneg (a b : Q) : 0 <= a -> 0 < b -> 0 <= a / b.
Proof.
  intros Ha Hb. unfold Qdiv. apply Qmult_le_0_compat; [exact Ha|].
  apply Qlt_le_weak. now apply Qinv_lt_0_compat.
Qed.

Lemma Qdiv_le_compat_r (a b c : Q) : a <= b -> 0 < c -> a / c <= b / c.
Proof.
  intros Hab Hc. unfold Qdiv. apply Qmult_le_compat_r; [exact Hab|].
  apply Qlt_le_weak. now apply Qinv_lt_0_compat.
Qed.

Lemma hit_rate_clamp_at_most_one (x : Q) :
  py_min 1 [x] == Qmin 1 x /\ py_min 1 [x] <= 1.
Proof.
  split; [apply py_min_two|].
  rewrite (py_min_two 1 x). apply Q.le_min_l.
Qed.

(** Whatever the capacity, the server count and the total volume, a hit
    rate that is returned is at most 1. *)
Lemma cache_hit_rate_at_most_one :
  (forall (g : Legacy.Globals) (c : Legacy.ServerConfig) (n r : Q),
     Legacy.calculate_cache_hit_rate g c n = Ok r -> r <= 1) /\
  (forall (s : Current.SystemConfig) (c : Current.ServerConfig) (n r : Q),
     Current.calculate_cache_hit_rate s c n = Ok r -> r <= 1).
Proof.
  split.
  - intros g c n r. unfold Legacy.calculate_cache_hit_rate. cbv zeta.
    destruct (py_div _ _) as [x|]; cbn [bind]; [|discriminate].
    intro H. injection H as <-.
    apply (proj2 (hit_rate_clamp_at_most_one x)).
  - intros s c n r. unfold Current.calculate_cache_hit_rate. cbv zeta.
    destruct (py_div _ _) as [x|]; cbn [bind]; [|discriminate].
    intro H. injection H as <-.
    apply (proj2 (hit_rate_clamp_at_most_one x)).
Qed.

(** C4.  For a non-negative cache capacity per server, server counts
    [0 <= n <= n'] and a positive total data volume, in both scripts
    [calculate_cache_hit_rate] returns [min(1, capacity * n / total)], the
    result lies in [[0, 1]], and the result for [n'] is not below the one
    for [n]. *)
Theorem cache_hit_rate_clamped_monotone
    (g : Legacy.Globals) (s : Current.SystemConfig)
    (lc : Legacy.ServerConfig) (cc : Current.ServerConfig) (n n' : Q) :
  0 <= Legacy.size lc -> 0 < Legacy.NUM_VIDEOS g ->
  0 <= Current.capacity cc -> 0 < Current.storage_capacity s ->
  0 <= n -> n <= n' ->
  exists lr lr' cr cr' : Q,
    Legacy.calculate_cache_hit_rate g lc n = Ok lr /\
    Legacy.calculate_cache_hit_rate g lc n' = Ok lr' /\
    Current.calculate_cache_hit_rate s cc n = Ok cr /\
    Current.calculate_cache_hit_rate s cc n' = Ok cr' /\
    lr == Qmin 1 (Legacy.size lc * n / Legacy.NUM_VIDEOS g) /\
    cr == Qmin 1 (Current.capacity cc * n / Current.storage_capacity s) /\
    (0 <= lr /\ lr <= 1) /\ (0 <= cr /\ cr <= 1) /\
    lr <= lr' /\ cr <= cr'.
Proof.
  intros Hsz Hnv Hcap Hst Hn Hnn.
  unfold Legacy.calculate_cache_hit_rate, Current.calculate_cache_hit_rate.
  rewrite !(py_div_ok _ _ (Qlt_0_neq _ Hnv)).
  rewrite !(py_div_ok _ _ (Qlt_0_neq _ Hst)).
  cbn [bind].
  do 4 eexists.
  split; [reflexivity|]. split; [reflexivity|].
  split; [reflexivity|]. split; [reflexivity|].
  split; [apply py_min_two|]. split; [apply py_min_two|].
  split; [|split; [|split]].
  - apply hit_rate_clamp_bounds. apply Qdiv_nonneg; [|exact Hnv].
    now apply Qmult_le_0_compat.
  - apply hit_rate_clamp_bounds. apply Qdiv_nonneg; [|exact Hst].
    now apply Qmult_le_0_compat.
  - apply hit_rate_clamp_mono. apply Qdiv_le_compat_r; [|exact Hnv].
    rewrite !(Qmult_comm (Legacy.size lc)).
    now apply Qmult_le_compat_r.
  - apply hit_rate_clamp_mono. apply Qdiv_le_compat_r; [|exact Hst].
    rewrite !(Qmult_comm (Current.capacity cc)).
    now apply Qmult_le_compat_r.
Qed.

(** 4096 units per server against 10,000,000,000: one server gives
    4.096e-7, three million servers give the clamped 1. *)
Lemma cache_hit_rate_clamped_monotone_witness :
  exists lr lr' cr cr' : Q,
    Legacy.calculate_cache_hit_rate Legacy.module_globals legacy_cache 1
      = Ok lr /\
    Legacy.calculate_cache_hit_rate Legacy.module_globals legacy_cache 3000000
      = Ok lr' /\
    Current.calculate_cache_hit_rate sample_system
      (current_of_legacy "cache" legacy_cache) 1 = Ok cr /\
    Current.calculate_cache_hit_rate sample_system
      (current_of_legacy "cache" legacy_cache) 3000000 = Ok cr' /\
    lr == Qmin 1 (Legacy.size legacy_cache * 1
                  / Legacy.NUM_VIDEOS Legacy.module_globals) /\
    cr == Qmin 1 (Current.capacity (current_of_legacy "cache" legacy_cache) * 1
                  / Current.storage_capacity sample_system) /\
    (0 <= lr /\ lr <= 1) /\ (0 <= cr /\ cr <= 1) /\
    lr <= lr' /\ cr <= cr'.
Proof.
  apply (cache_hit_rate_clamped_monotone Legacy.module_globals sample_system
           legacy_cache (current_of_legacy "cache" legacy_cache) 1 3000000);
    Qcompare.
Defined.

(** ** Carbon costs *)

(** One tier's replacement step: it returns a cost as specified whenever
    the lifespan is not zero. *)
Lemma replacement_step (y : Z) (lifespan n : Q) (k : Q -> Q) :
  ~ lifespan == 0 ->
  exists r : Q,
    (if Qlt_bool lifespan (inject_Z y) then
       num_replacements <- py_floordiv (inject_Z y) lifespan ;;
       Ok (k num_replacements)
     else Ok 0) = Ok r /\
    (inject_Z y <= lifespan -> r = 0) /\
    (lifespan < inject_Z y ->
     r = k (inject_Z (Qfloor (inject_Z y / lifespan)))).
Proof.
  intro Hl.
  destruct (Qlt_bool lifespan (inject_Z y)) eqn:E.
  - apply Qlt_bool_iff in E.
    rewrite (py_floordiv_ok _ _ Hl). cbn [bind].
    eexists. split; [reflexivity|]. split.
    + intro Hle. exfalso. exact (Qlt_not_le _ _ E Hle).
    + intros _. reflexivity.
  - apply Qlt_bool_false_iff in E.
    eexists. split; [reflexivity|]. split.
    + intros _. reflexivity.
    + intro Hlt. exfalso. exact (Qlt_not_le _ _ Hlt E).
Qed.



(** Lifespan 5 and 12 simulated years: 2 replacements of the frontend and
    of the backend fleet; lifespan 10: 1 replacement of the cache fleet; and
    none of them at 5 simulated years. *)
Example replacement_after_twelve_years :
  exists (e a i e' a' i' : list Q) (rf rc rb : Q),
    Legacy.calculate_individual_carbon_costs Legacy.module_globals
      legacy_frontend legacy_cache legacy_backend 200 50 3704 0.25 12
      = Ok (e, a, i, [rf; rc; rb]) /\
    rf == 2 * 200 * (0.16 * 3840) /\
    rc == 1 * 50 * (0.31 * 4096) /\
    rb == 2 * 3704 * (0.0017 * 18000) /\
    Legacy.calculate_individual_carbon_costs Legacy.module_globals
      legacy_frontend legacy_cache legacy_backend 200 50 3704 0.25 5
      = Ok (e', a', i', [0; 0; 0]).
Proof.
  do 9 eexists.
  split; [vm_compute; reflexivity|].
  repeat split; vm_compute; reflexivity.
Qed.

(** C6.  With lifespans that are not zero, both scripts return cost lists
    in which the backend's active and idle cost are a quantity free of the
    hit rate times [1 - cache_hit_rate], and the frontend's and the cache's
    active and idle cost are free of the hit rate. *)
Theorem backend_costs_scaled_by_miss_rate
    (g : Legacy.Globals) (s : Current.SystemConfig)
    (lf lc lb : Legacy.ServerConfig) (cf cc cb : Current.ServerConfig)
    (nf nc nb : Q) (y : Z) :
  ~ Legacy.lifespan_years lf == 0 ->
  ~ Legacy.lifespan_years lc == 0 ->
  ~ Legacy.lifespan_years lb == 0 ->
  ~ Current.lifespan cf == 0 ->
  ~ Current.lifespan cc == 0 ->
  ~ Current.lifespan cb == 0 ->
  exists (le lr ce cr : list Q)
         (lfa lca lba lfi lci lbi cfa cca cba cfi cci cbi : Q),
    forall h : Q,
      Legacy.calculate_individual_carbon_costs g lf lc lb nf nc nb h y
        = Ok (le, [lfa; lca; lba * (1 - h)], [lfi; lci; lbi * (1 - h)], lr) /\
      Current.calculate_individual_carbon_costs s cf cc cb nf nc nb h y
        = Ok (ce, [cfa; cca; cba * (1 - h)], [cfi; cci; cbi * (1 - h)], cr).
Proof.
  intros Hlf Hlc Hlb Hcf Hcc Hcb.
  unfold Legacy.calculate_individual_carbon_costs,
    Current.calculate_individual_carbon_costs.
  cbv zeta.
  destruct (replacement_step y _ nf
    (fun r => r * nf * Legacy.carbon_cost lf * Legacy.size lf) Hlf)
    as (lrf & -> & _).
  destruct (replacement_step y _ nc
    (fun r => r * nc * Legacy.carbon_cost lc * Legacy.size lc) Hlc)
    as (lrc & -> & _).
  destruct (replacement_step y _ nb
    (fun r => r * nb * Legacy.carbon_cost lb * Legacy.size lb) Hlb)
    as (lrb & -> & _).
  destruct (replacement_step y _ nf
    (fun r => r * nf * Current.initial (Current.embodied_cost cf)) Hcf)
    as (crf & -> & _).
  destruct (replacement_step y _ nc
    (fun r => r * nc * Current.initial (Current.embodied_cost cc)) Hcc)
    as (crc & -> & _).
  destruct (replacement_step y _ nb
    (fun r => r * nb * Current.initial (Current.embodied_cost cb)) Hcb)
    as (crb & -> & _).
  cbn [bind].
  do 16 eexists. intro h. split; reflexivity.
Qed.

Lemma backend_costs_scaled_by_miss_rate_witness :
  exists (le lr ce cr : list Q)
         (lfa lca lba lfi lci lbi cfa cca cba cfi cci cbi : Q),
    forall h : Q,
      Legacy.calculate_individual_carbon_costs Legacy.module_globals
        legacy_frontend legacy_cache legacy_backend 200 50 3704 h 12
        = Ok (le, [lfa; lca; lba * (1 - h)], [lfi; lci; lbi * (1 - h)], lr) /\
      Current.calculate_individual_carbon_costs sample_system
        (current_of_legacy "frontend" legacy_frontend)
        (current_of_legacy "cache" legacy_cache)
        (current_of_legacy "backend" legacy_backend) 200 50 3704 h 12
        = Ok (ce, [cfa; cca; cba * (1 - h)], [cfi; cci; cbi * (1 - h)], cr).
Proof.
  apply (backend_costs_scaled_by_miss_rate Legacy.module_globals sample_system
           legacy_frontend legacy_cache legacy_backend
           (current_of_legacy "frontend" legacy_frontend)
           (current_of_legacy "cache" legacy_cache)
           (current_of_legacy "backend" legacy_backend)
           200 50 3704 12);
    Qcompare.
Defined.

(** ** The whole run *)

Lemma legacy_carbon_costs_return (g : Legacy.Globals)
    (f c b : Legacy.ServerConfig) (nf nc nb h : Q) (y : Z) :
  ~ Legacy.lifespan_years f == 0 ->
  ~ Legacy.lifespan_years c == 0 ->
  ~ Legacy.lifespan_years b == 0 ->
  exists e a i r : list Q,
    Legacy.calculate_individual_carbon_costs g f c b nf nc nb h y
    = Ok (e, a, i, r).
Proof.
  intros Hf Hc Hb.
  unfold Legacy.calculate_individual_carbon_costs. cbv zeta.
  destruct (replacement_step y _ nf
    (fun r => r * nf * Legacy.carbon_cost f * Legacy.size f) Hf)
    as (rf & -> & _).
  destruct (replacement_step y _ nc
    (fun r => r * nc * Legacy.carbon_cost c * Legacy.size c) Hc)
    as (rc & -> & _).
  destruct (replacement_step y _ nb
    (fun r => r * nb * Legacy.carbon_cost b * Legacy.size b) Hb)
    as (rb & -> & _).
  cbn [bind]. do 4 eexists. reflexivity.
Qed.

Lemma current_carbon_costs_return (s : Current.SystemConfig)
    (f c b : Current.ServerConfig) (nf nc nb h : Q) (y : Z) :
  ~ Current.lifespan f == 0 ->
  ~ Current.lifespan c == 0 ->
  ~ Current.lifespan b == 0 ->
  exists e a i r : list Q,
    Current.calculate_individual_carbon_costs s f c b nf nc nb h y
    = Ok (e, a, i, r).
Proof.
  intros Hf Hc Hb.
  unfold Current.calculate_individual_carbon_costs. cbv zeta.
  destruct (replacement_step y _ nf
    (fun r => r * nf * Current.initial (Current.embodied_cost f)) Hf)
    as (rf & -> & _).
  destruct (replacement_step y _ nc
    (fun r => r * nc * Current.initial (Current.embodied_cost c)) Hc)
    as (rc & -> & _).
  destruct (replacement_step y _ nb
    (fun r => r * nb * Current.initial (Current.embodied_cost b)) Hb)
    as (rb & -> & _).
  cbn [bind]. do 4 eexists. reflexivity.
Qed.

(** Every entry of the built-in tables has a positive throughput and a
    positive lifespan. *)
Lemma legacy_tables_positive (hf : Legacy.frontend_hardware)
    (hc : Legacy.cache_hardware) (hb : Legacy.backend_hardware) :
  let f := Legacy.ServerConfig_init hf Legacy.FrontendParams in
  let c := Legacy.ServerConfig_init hc Legacy.CacheParams in
  let b := Legacy.ServerConfig_init hb Legacy.BackendParams in
  (0 < Legacy.throughput f /\ 0 < Legacy.throughput c
   /\ 0 < Legacy.throughput b) /\
  (0 < Legacy.lifespan_years f /\ 0 < Legacy.lifespan_years c
   /\ 0 < Legacy.lifespan_years b).
Proof.
  destruct hf, hc, hb; cbv zeta; repeat split.
Qed.

(** The legacy run always returns; its row carries the [--slo_latency]
    given and the peak throughput of the three sized tiers. *)
Lemma legacy_main_returns (args : Legacy.Args) :
  let t := inject_Z (Legacy.slo_throughput args) in
  let f := Legacy.ServerConfig_init (Legacy.frontend args)
             Legacy.FrontendParams in
  let c := Legacy.ServerConfig_init (Legacy.cache args) Legacy.CacheParams in
  let b := Legacy.ServerConfig_init (Legacy.backend args)
             Legacy.BackendParams in
  exists o : Legacy.Output,
    Legacy.main args = Ok o /\
    Legacy.row_slo_latency (Legacy.row o) = Legacy.slo_latency args /\
    Legacy.row_peak_throughput (Legacy.row o)
    = Legacy.calculate_peak_throughput
        (Legacy.calculate_total_throughput f
           (np_ceil (t / Legacy.throughput f)))
        (Legacy.calculate_total_throughput c
           (np_ceil (t / Legacy.throughput c)))
        (Legacy.calculate_total_throughput b
           (np_ceil (t / Legacy.throughput b))).
Proof.
  intros t f c b.
  destruct (legacy_tables_positive (Legacy.frontend args) (Legacy.cache args)
              (Legacy.backend args)) as ((Tf & Tc & Tb) & (Lf & Lc & Lb)).
  fold f c b in Tf, Tc, Tb, Lf, Lc, Lb.
  unfold Legacy.main. cbv zeta. fold f c b t.
  rewrite (proj1 (servers_needed_nonzero t _ (Qlt_0_neq _ Tf))).
  rewrite (proj1 (servers_needed_nonzero t _ (Qlt_0_neq _ Tc))).
  rewrite (proj1 (servers_needed_nonzero t _ (Qlt_0_neq _ Tb))).
  cbn [bind].
  unfold Legacy.calculate_cache_hit_rate. cbv zeta.
  rewrite py_div_ok by Qcompare. cbn [bind].
  match goal with
  | |- context [Legacy.calculate_individual_carbon_costs ?g ?f ?c ?b
                  ?nf ?nc ?nb ?h ?y] =>
    destruct (legacy_carbon_costs_return g f c b nf nc nb h y
                (Qlt_0_neq _ Lf) (Qlt_0_neq _ Lc) (Qlt_0_neq _ Lb))
      as (e & a & i & r & ->)
  end.
  cbn [bind]. eexists. split; [reflexivity|]. split; reflexivity.
Qed.

(** C9.  [--slo_latency] reaches nothing but the first column of the row: a
    run with another value returns the same report and the same row but for
    that column (or raises the same exception), and the column holds the
    value given.  The legacy run always returns. *)
Theorem slo_latency_only_copied :
  (forall (l : Z) (args : Legacy.Args),
     Legacy.main (legacy_with_slo_latency l args)
     = map_result (legacy_output_with_slo_latency l) (Legacy.main args)) /\
  (forall args : Legacy.Args,
     exists o : Legacy.Output,
       Legacy.main args = Ok o /\
       Legacy.row_slo_latency (Legacy.row o) = Legacy.slo_latency args) /\
  (forall (l : Z) (args : Current.Args) (s : Current.SystemConfig)
          (f c b : Current.ServerConfig),
     Current.main (current_with_slo_latency l args) s f c b
     = map_result (current_output_with_slo_latency l)
         (Current.main args s f c b)) /\
  (forall (args : Current.Args) (s : Current.SystemConfig)
          (f c b : Current.ServerConfig),
     match Current.main args s f c b with
     | Ok o => Current.row_slo_latency (Current.row o)
               = Current.slo_latency args
     | Raise _ => True
     end).
Proof.
  split; [|split; [|split]].
  - intros l args. unfold Legacy.main. cbv zeta.
    cbn [legacy_with_slo_latency Legacy.slo_latency Legacy.slo_throughput
         Legacy.frontend Legacy.cache Legacy.backend Legacy.simulation_years].
    do 4 run_step.
    match goal with
    | |- context [bind ?m _] => destruct m as [[[[? ?] ?] ?]|]
    end; cbn [bind map_result]; reflexivity.
  - intro args. destruct (legacy_main_returns args) as (o & Ho & Hl & _).
    exists o. split; assumption.
  - intros l args s f c b. unfold Current.main.
    cbn [current_with_slo_latency Current.slo_latency Current.slo_throughput
         Current.simulation_years].
    do 4 run_step.
    match goal with
    | |- context [bind ?m _] => destruct m as [[[[? ?] ?] ?]|]
    end; cbn [bind map_result]; reflexivity.
  - intros args s f c b. unfold Current.main.
    do 4 run_step.
    match goal with
    | |- context [bind ?m _] => destruct m as [[[[? ?] ?] ?]|]
    end; cbn [bind]; [reflexivity | exact I].
Qed.

(** The default legacy run, evaluated: 200 frontend, 50 cache and 3704
    backend servers, and a peak throughput of exactly 1000. *)
Example legacy_default_run :
  exists o : Legacy.Output,
    Legacy.main legacy_args = Ok o /\
    Legacy.row_frontend_servers (Legacy.row o) == 200 /\
    Legacy.row_cache_servers (Legacy.row o) == 50 /\
    Legacy.row_backend_servers (Legacy.row o) == 3704 /\
    Legacy.row_peak_throughput (Legacy.row o) == 1000 /\
    Legacy.row_slo_latency (Legacy.row o) = 100%Z.
Proof.
  eexists. split; [vm_compute; reflexivity|].
  repeat split; vm_compute; reflexivity.
Qed.

(** ** Further properties: capacity sizing *)



Lemma np_ceil_mono (x y : Q) : x <= y -> np_ceil x <= np_ceil y.
Proof.
  intro H. unfold np_ceil. rewrite <- Zle_Qle. now apply Qceiling_resp_le.
Qed.



(** X3.  With positive per-server throughputs, more load never needs
    fewer servers, whatever the sign of the load; and, for a load that is
    not negative, faster servers never need more. *)
Theorem servers_needed_monotone (t t' p p' : Q) :
  0 < p -> p <= p' -> t <= t' ->
  exists a b c : Q,
    Legacy.calculate_servers_needed t p' = Ok a /\
    Legacy.calculate_servers_needed t p = Ok b /\
    Legacy.calculate_servers_needed t' p = Ok c /\
    Current.calculate_servers_needed t p' = Ok a /\
    Current.calculate_servers_needed t p = Ok b /\
    Current.calculate_servers_needed t' p = Ok c /\
    b <= c /\ (0 <= t -> a <= b).
Proof.
  intros Hp Hpp Htt.
  assert (Hp' : 0 < p') by (eapply Qlt_le_trans; eassumption).
  exists (np_ceil (t / p')), (np_ceil (t / p)), (np_ceil (t' / p)).
  destruct (servers_needed_nonzero t p' (Qlt_0_neq _ Hp')) as [-> ->].
  destruct (servers_needed_nonzero t p (Qlt_0_neq _ Hp)) as [-> ->].
  destruct (servers_needed_nonzero t' p (Qlt_0_neq _ Hp)) as [-> ->].
  repeat (split; [reflexivity|]).
  split.
  - apply np_ceil_mono.
    unfold Qdiv. apply Qmult_le_compat_r; [exact Htt|].
    apply Qlt_le_weak. now apply Qinv_lt_0_compat.
  - intro Ht. apply np_ceil_mono.
    apply Qle_shift_div_l; [exact Hp|].
    assert (E : t / p' * p' == t)
      by (apply Qdiv_mult_cancel; now apply Qlt_0_neq).
    assert (Hq : 0 <= t / p') by (apply Qle_shift_div_l; [exact Hp'|lra]).
    set (q := t / p') in *. nra.
Qed.

(** From a load of -7 to 1000 to 2000 on servers of 5, and 1000 on
    servers of 20. *)
Lemma servers_needed_monotone_witness :
  (exists a b c : Q,
     Legacy.calculate_servers_needed (-7) 20 = Ok a /\
     Legacy.calculate_servers_needed (-7) 5 = Ok b /\
     Legacy.calculate_servers_needed 1000 5 = Ok c /\
     Current.calculate_servers_needed (-7) 20 = Ok a /\
     Current.calculate_servers_needed (-7) 5 = Ok b /\
     Current.calculate_servers_needed 1000 5 = Ok c /\
     b <= c /\ (0 <= -7 -> a <= b)) /\
  (exists a b c : Q,
     Legacy.calculate_servers_needed 1000 20 = Ok a /\
     Legacy.calculate_servers_needed 1000 5 = Ok b /\
     Legacy.calculate_servers_needed 2000 5 = Ok c /\
     Current.calculate_servers_needed 1000 20 = Ok a /\
     Current.calculate_servers_needed 1000 5 = Ok b /\
     Current.calculate_servers_needed 2000 5 = Ok c /\
     b <= c /\ (0 <= 1000 -> a <= b)).
Proof.
  split.
  - apply (servers_needed_monotone (-7) 1000 5 20); Qcompare.
  - apply (servers_needed_monotone 1000 2000 5 20); Qcompare.
Defined.

(** ** Further properties: cache hit rate and latency *)

Lemma py_min_one_below (x : Q) : x < 1 -> py_min 1 [x] = x.
Proof.
  intro H. unfold py_min; simpl. apply Qlt_bool_iff in H. now rewrite H.
Qed.



(** X4.  With a total volume that is not zero, the hit rate returned is at
    most 1 whatever the capacity and the server count are, and a ratio
    below 1 is returned as it is: there is no clamp at 0, so a negative
    server count gives a negative hit rate. *)
Theorem cache_hit_rate_clamped_above_only
    (g : Legacy.Globals) (s : Current.SystemConfig)
    (lc : Legacy.ServerConfig) (cc : Current.ServerConfig) (n : Q) :
  ~ Legacy.NUM_VIDEOS g == 0 -> ~ Current.storage_capacity s == 0 ->
  exists lr cr : Q,
    Legacy.calculate_cache_hit_rate g lc n = Ok lr /\
    Current.calculate_cache_hit_rate s cc n = Ok cr /\
    lr <= 1 /\ cr <= 1 /\
    (Legacy.size lc * n / Legacy.NUM_VIDEOS g < 1 ->
     lr = Legacy.size lc * n / Legacy.NUM_VIDEOS g) /\
    (Current.capacity cc * n / Current.storage_capacity s < 1 ->
     cr = Current.capacity cc * n / Current.storage_capacity s).
Proof.
  intros Hg Hs.
  unfold Legacy.calculate_cache_hit_rate, Current.calculate_cache_hit_rate.
  cbv zeta. rewrite (py_div_ok _ _ Hg), (py_div_ok _ _ Hs). cbn [bind].
  do 2 eexists. split; [reflexivity|]. split; [reflexivity|].
  split; [apply hit_rate_clamp_at_most_one|].
  split; [apply hit_rate_clamp_at_most_one|].
  split; apply py_min_one_below.
Qed.

(** Fifty servers short: a hit rate below zero. *)
Lemma cache_hit_rate_clamped_above_only_witness :
  exists lr cr : Q,
    Legacy.calculate_cache_hit_rate Legacy.module_globals legacy_cache (-50)
      = Ok lr /\
    Current.calculate_cache_hit_rate sample_system
      (current_of_legacy "cache" legacy_cache) (-50) = Ok cr /\
    lr <= 1 /\ cr <= 1 /\
    (Legacy.size legacy_cache * (-50)
       / Legacy.NUM_VIDEOS Legacy.module_globals < 1 ->
     lr = Legacy.size legacy_cache * (-50)
          / Legacy.NUM_VIDEOS Legacy.module_globals) /\
    (Current.capacity (current_of_legacy "cache" legacy_cache) * (-50)
       / Current.storage_capacity sample_system < 1 ->
     cr = Current.capacity (current_of_legacy "cache" legacy_cache) * (-50)
          / Current.storage_capacity sample_system).
Proof.
  apply (cache_hit_rate_clamped_above_only Legacy.module_globals sample_system
           legacy_cache (current_of_legacy "cache" legacy_cache) (-50));
    Qcompare.
Defined.



(** X6.  In the current script, for a hit rate in [[0, 1]] and a backend
    effective latency that is not negative, the average latency lies
    between the latency of a request served by the cache and that of a
    request served by the backend; the two ends are reached at hit rates 1
    and 0. *)
Theorem average_latency_between_hit_and_miss
    (s : Current.SystemConfig) (cf cc cb : Current.ServerConfig) (h : Q) :
  0 <= h -> h <= 1 ->
  0 <= current_effective_latency s cb ->
  (current_effective_latency s cf + current_effective_latency s cc
   <= Current.calculate_average_latency s cf cc cb h /\
   Current.calculate_average_latency s cf cc cb h
   <= current_effective_latency s cf + current_effective_latency s cc
      + current_effective_latency s cb) /\
  Current.calculate_average_latency s cf cc cb 1
  == current_effective_latency s cf + current_effective_latency s cc /\
  Current.calculate_average_latency s cf cc cb 0
  == current_effective_latency s cf + current_effective_latency s cc
     + current_effective_latency s cb.
Proof.
  intros H0 H1 Hc.
  rewrite !current_average_latency_closed_form.
  set (b := current_effective_latency s cb) in *.
  repeat split; try nra; ring.
Qed.

Lemma average_latency_between_hit_and_miss_witness :
  (current_effective_latency sample_system
     (current_of_legacy "frontend" legacy_frontend)
   + current_effective_latency sample_system
       (current_of_legacy "cache" legacy_cache)
   <= Current.calculate_average_latency sample_system
        (current_of_legacy "frontend" legacy_frontend)
        (current_of_legacy "cache" legacy_cache)
        (current_of_legacy "backend" legacy_backend) 0.25 /\
   Current.calculate_average_latency sample_system
     (current_of_legacy "frontend" legacy_frontend)
     (current_of_legacy "cache" legacy_cache)
     (current_of_legacy "backend" legacy_backend) 0.25
   <= current_effective_latency sample_system
        (current_of_legacy "frontend" legacy_frontend)
      + current_effective_latency sample_system
          (current_of_legacy "cache" legacy_cache)
      + current_effective_latency sample_system
          (current_of_legacy "backend" legacy_backend)) /\
  Current.calculate_average_latency sample_system
    (current_of_legacy "frontend" legacy_frontend)
    (current_of_legacy "cache" legacy_cache)
    (current_of_legacy "backend" legacy_backend) 1
  == current_effective_latency sample_system
       (current_of_legacy "frontend" legacy_frontend)
     + current_effective_latency sample_system
         (current_of_legacy "cache" legacy_cache) /\
  Current.calculate_average_latency sample_system
    (current_of_legacy "frontend" legacy_frontend)
    (current_of_legacy "cache" legacy_cache)
    (current_of_legacy "backend" legacy_backend) 0
  == current_effective_latency sample_system
       (current_of_legacy "frontend" legacy_frontend)
     + current_effective_latency sample_system
         (current_of_legacy "cache" legacy_cache)
     + current_effective_latency sample_system
         (current_of_legacy "backend" legacy_backend).
Proof.
  apply (average_latency_between_hit_and_miss sample_system
           (current_of_legacy "frontend" legacy_frontend)
           (current_of_legacy "cache" legacy_cache)
           (current_of_legacy "backend" legacy_backend) 0.25); Qcompare.
Defined.

(** ** Further properties: carbon costs *)

(** One tier's replacement step raises exactly on a zero lifespan that the
    simulated years exceed. *)
Lemma replacement_step_outcome (y : Z) (lifespan : Q) (k : Q -> Q) :
  let step :=
    if Qlt_bool lifespan (inject_Z y) then
      num_replacements <- py_floordiv (inject_Z y) lifespan ;;
      Ok (k num_replacements)
    else Ok 0 in
  (lifespan == 0 /\ (0 < y)%Z -> step = Raise ZeroDivisionError) /\
  (~ (lifespan == 0 /\ (0 < y)%Z) -> exists r : Q, step = Ok r).
Proof.
  cbv zeta. split.
  - intros [E Hy].
    assert (Hlt : lifespan < inject_Z y).
    { rewrite E. now rewrite <- (Zlt_Qlt 0). }
    apply Qlt_bool_iff in Hlt. rewrite Hlt.
    unfold py_floordiv. apply Qeq_bool_iff in E. now rewrite E.
  - intro N.
    destruct (Qlt_bool lifespan (inject_Z y)) eqn:B; [|now eexists].
    apply Qlt_bool_iff in B.
    destruct (Qeq_dec lifespan 0) as [E|NE].
    + exfalso. apply N. split; [exact E|].
      rewrite E in B. now rewrite (Zlt_Qlt 0).
    + rewrite (py_floordiv_ok _ _ NE). cbn [bind]. now eexists.
Qed.

Lemma zero_lifespan_exceeded_dec (y : Z) (lifespan : Q) :
  {lifespan == 0 /\ (0 < y)%Z} + {~ (lifespan == 0 /\ (0 < y)%Z)}.
Proof.
  destruct (Qeq_dec lifespan 0) as [E|N]; [|right; tauto].
  destruct (Z_lt_dec 0 y) as [H|H]; [left|right]; tauto.
Qed.

(** Settles the three replacement steps of a goal, one case per outcome. *)
Ltac settle_replacement_steps y :=
  repeat match goal with
  | |- context [if Qlt_bool ?l (inject_Z y)
                then bind (py_floordiv (inject_Z y) ?l) (fun r => Ok (@?k r))
                else Ok 0] =>
    let S := fresh "S" in
    let r := fresh "r" in
    destruct (zero_lifespan_exceeded_dec y l) as [?|?];
    [ rewrite (proj1 (replacement_step_outcome y l k)) by assumption
    | destruct (proj2 (replacement_step_outcome y l k)) as [r S];
      [assumption|]; rewrite S; clear S ];
    cbn [bind]
  end.

Lemma legacy_carbon_costs_raise_iff (g : Legacy.Globals)
    (f c b : Legacy.ServerConfig) (nf nc nb h : Q) (y : Z) :
  Legacy.calculate_individual_carbon_costs g f c b nf nc nb h y
  = Raise ZeroDivisionError
  <-> (0 < y)%Z /\ (Legacy.lifespan_years f == 0
                    \/ Legacy.lifespan_years c == 0
                    \/ Legacy.lifespan_years b == 0).
Proof.
  unfold Legacy.calculate_individual_carbon_costs. cbv zeta.
  settle_replacement_steps y;
    (split; [try discriminate; tauto | try reflexivity; tauto]).
Qed.

Lemma current_carbon_costs_raise_iff (s : Current.SystemConfig)
    (f c b : Current.ServerConfig) (nf nc nb h : Q) (y : Z) :
  Current.calculate_individual_carbon_costs s f c b nf nc nb h y
  = Raise ZeroDivisionError
  <-> (0 < y)%Z /\ (Current.lifespan f == 0
                    \/ Current.lifespan c == 0
                    \/ Current.lifespan b == 0).
Proof.
  unfold Current.calculate_individual_carbon_costs. cbv zeta.
  settle_replacement_steps y;
    (split; [try discriminate; tauto | try reflexivity; tauto]).
Qed.

(** X7.  [calculate_individual_carbon_costs] raises [ZeroDivisionError]
    exactly when some tier has lifespan 0 and the simulated years are
    positive; nothing else makes it fail. *)
Theorem carbon_costs_raise_iff_zero_lifespan
    (g : Legacy.Globals) (s : Current.SystemConfig)
    (lf lc lb : Legacy.ServerConfig) (cf cc cb : Current.ServerConfig)
    (nf nc nb h : Q) (y : Z) :
  (Legacy.calculate_individual_carbon_costs g lf lc lb nf nc nb h y
   = Raise ZeroDivisionError
   <-> (0 < y)%Z /\ (Legacy.lifespan_years lf == 0
                     \/ Legacy.lifespan_years lc == 0
                     \/ Legacy.lifespan_years lb == 0)) /\
  (Current.calculate_individual_carbon_costs s cf cc cb nf nc nb h y
   = Raise ZeroDivisionError
   <-> (0 < y)%Z /\ (Current.lifespan cf == 0
                     \/ Current.lifespan cc == 0
                     \/ Current.lifespan cb == 0)).
Proof.
  split.
  - apply legacy_carbon_costs_raise_iff.
  - apply current_carbon_costs_raise_iff.
Qed.

(** At zero simulated years a replacement step returns 0 or the cost of
    zero replacements. *)
Lemma replacement_step_zero_years (lifespan : Q) (k : Q -> Q) :
  (if Qlt_bool lifespan (inject_Z 0) then
     num_replacements <- py_floordiv (inject_Z 0) lifespan ;;
     Ok (k num_replacements)
   else Ok 0) = Ok 0 \/
  (if Qlt_bool lifespan (inject_Z 0) then
     num_replacements <- py_floordiv (inject_Z 0) lifespan ;;
     Ok (k num_replacements)
   else Ok 0) = Ok (k 0).
Proof.
  destruct (Qlt_bool lifespan (inject_Z 0)) eqn:B; [right|left; reflexivity].
  apply Qlt_bool_iff in B.
  assert (N : ~ lifespan == 0).
  { intro E. rewrite E in B. exact (Qlt_irrefl _ B). }
  rewrite (py_floordiv_ok _ _ N). cbn [bind].
  assert (E : inject_Z 0 / lifespan == 0) by (field; exact N).
  rewrite (Qfloor_comp _ _ E). reflexivity.
Qed.

(** X8.  Over zero simulated years nothing raises, whatever the lifespans
    are, and the active, idle and replacement costs of every tier are 0:
    only the embodied cost is left. *)
Theorem zero_years_leave_embodied_cost_only
    (g : Legacy.Globals) (s : Current.SystemConfig)
    (lf lc lb : Legacy.ServerConfig) (cf cc cb : Current.ServerConfig)
    (nf nc nb h : Q) :
  exists le la li lr ce ca ci cr : list Q,
    Legacy.calculate_individual_carbon_costs g lf lc lb nf nc nb h 0
      = Ok (le, la, li, lr) /\
    Current.calculate_individual_carbon_costs s cf cc cb nf nc nb h 0
      = Ok (ce, ca, ci, cr) /\
    all_zero la /\ all_zero li /\ all_zero lr /\
    all_zero ca /\ all_zero ci /\ all_zero cr.
Proof.
  unfold Legacy.calculate_individual_carbon_costs,
    Current.calculate_individual_carbon_costs.
  cbv zeta.
  destruct (replacement_step_zero_years (Legacy.lifespan_years lf)
    (fun r => r * nf * Legacy.carbon_cost lf * Legacy.size lf)) as [-> | ->];
  destruct (replacement_step_zero_years (Legacy.lifespan_years lc)
    (fun r => r * nc * Legacy.carbon_cost lc * Legacy.size lc)) as [-> | ->];
  destruct (replacement_step_zero_years (Legacy.lifespan_years lb)
    (fun r => r * nb * Legacy.carbon_cost lb * Legacy.size lb)) as [-> | ->];
  destruct (replacement_step_zero_years (Current.lifespan cf)
    (fun r => r * nf * Current.initial (Current.embodied_cost cf)))
    as [-> | ->];
  destruct (replacement_step_zero_years (Current.lifespan cc)
    (fun r => r * nc * Current.initial (Current.embodied_cost cc)))
    as [-> | ->];
  destruct (replacement_step_zero_years (Current.lifespan cb)
    (fun r => r * nb * Current.initial (Current.embodied_cost cb)))
    as [-> | ->];
  cbn [bind]; do 8 eexists;
  (split; [reflexivity|]); (split; [reflexivity|]);
  unfold all_zero;
  repeat split; repeat constructor;
  change (inject_Z (0 * seconds_in_a_year)) with 0; ring.
Qed.

Lemma Qfloor_nonneg (x : Q) : 0 <= x -> 0 <= inject_Z (Qfloor x).
Proof.
  intro H. rewrite <- (Zle_Qle 0). rewrite <- (Qfloor_Z 0).
  now apply Qfloor_resp_le.
Qed.

Lemma Qfloor_at_least_one (x : Q) : 1 <= x -> 1 <= inject_Z (Qfloor x).
Proof.
  intro H. rewrite <- (Zle_Qle 1). rewrite <- (Qfloor_Z 1).
  now apply Qfloor_resp_le.
Qed.

Lemma Qfloor_mono (x x' : Q) :
  x <= x' -> inject_Z (Qfloor x) <= inject_Z (Qfloor x').
Proof.
  intro H. rewrite <- Zle_Qle. now apply Qfloor_resp_le.
Qed.

(** One tier, two horizons: with a positive lifespan and a fleet whose
    embodied cost [e] is not negative, the replacement cost is not
    negative, does not decrease with the years, and is at least [e] once
    the lifespan is exceeded. *)
Lemma replacement_step_mono (y y' : Z) (lifespan e : Q) (k : Q -> Q) :
  0 < lifespan -> 0 <= e -> (forall N : Q, k N == N * e) -> (y <= y')%Z ->
  exists r r' : Q,
    (if Qlt_bool lifespan (inject_Z y) then
       num_replacements <- py_floordiv (inject_Z y) lifespan ;;
       Ok (k num_replacements)
     else Ok 0) = Ok r /\
    (if Qlt_bool lifespan (inject_Z y') then
       num_replacements <- py_floordiv (inject_Z y') lifespan ;;
       Ok (k num_replacements)
     else Ok 0) = Ok r' /\
    0 <= r /\ r <= r' /\ (lifespan < inject_Z y -> e <= r).
Proof.
  intros Hl He Hk Hy.
  destruct (replacement_step y lifespan 0 k (Qlt_0_neq _ Hl))
    as (r & S & R0 & R1).
  destruct (replacement_step y' lifespan 0 k (Qlt_0_neq _ Hl))
    as (r' & S' & R0' & R1').
  exists r, r'. split; [exact S|]. split; [exact S'|].
  assert (Hyy : inject_Z y <= inject_Z y') by now rewrite <- Zle_Qle.
  assert (Hone : forall z : Z, lifespan < inject_Z z ->
                 1 <= inject_Z (Qfloor (inject_Z z / lifespan))).
  { intros z Hz. apply Qfloor_at_least_one.
    apply Qle_shift_div_l; [exact Hl|lra]. }
  assert (Hr' : 0 <= r').
  { destruct (Qlt_le_dec lifespan (inject_Z y')) as [H|H].
    - rewrite (R1' H), Hk. specialize (Hone y' H). nra.
    - rewrite (R0' H). lra. }
  destruct (Qlt_le_dec lifespan (inject_Z y)) as [H|H].
  - assert (H' : lifespan < inject_Z y') by lra.
    rewrite (R1 H), (R1' H'), !Hk.
    specialize (Hone y H).
    assert (Hm : inject_Z (Qfloor (inject_Z y / lifespan))
                 <= inject_Z (Qfloor (inject_Z y' / lifespan))).
    { apply Qfloor_mono. unfold Qdiv. apply Qmult_le_compat_r; [exact Hyy|].
      apply Qlt_le_weak. now apply Qinv_lt_0_compat. }
    repeat split; try nra; intros; nra.
  - rewrite (R0 H). repeat split; try lra; intros; lra.
Qed.

(** X10.  With positive lifespans and fleets whose embodied cost is not
    negative, the replacement cost of every tier does not decrease when
    more years are simulated. *)
Theorem replacement_cost_monotone_in_years
    (g : Legacy.Globals) (s : Current.SystemConfig)
    (lf lc lb : Legacy.ServerConfig) (cf cc cb : Current.ServerConfig)
    (nf nc nb h : Q) (y y' : Z) :
  0 < Legacy.lifespan_years lf ->
  0 < Legacy.lifespan_years lc ->
  0 < Legacy.lifespan_years lb ->
  0 < Current.lifespan cf ->
  0 < Current.lifespan cc ->
  0 < Current.lifespan cb ->
  0 <= nf * Legacy.carbon_cost lf * Legacy.size lf ->
  0 <= nc * Legacy.carbon_cost lc * Legacy.size lc ->
  0 <= nb * Legacy.carbon_cost lb * Legacy.size lb ->
  0 <= nf * Current.initial (Current.embodied_cost cf) ->
  0 <= nc * Current.initial (Current.embodied_cost cc) ->
  0 <= nb * Current.initial (Current.embodied_cost cb) ->
  (y <= y')%Z ->
  exists le la li lr le' la' li' lr' ce ca ci cr ce' ca' ci' cr' : list Q,
    Legacy.calculate_individual_carbon_costs g lf lc lb nf nc nb h y
      = Ok (le, la, li, lr) /\
    Legacy.calculate_individual_carbon_costs g lf lc lb nf nc nb h y'
      = Ok (le', la', li', lr') /\
    Current.calculate_individual_carbon_costs s cf cc cb nf nc nb h y
      = Ok (ce, ca, ci, cr) /\
    Current.calculate_individual_carbon_costs s cf cc cb nf nc nb h y'
      = Ok (ce', ca', ci', cr') /\
    all_nonneg lr /\ pointwise_le lr lr' /\
    all_nonneg cr /\ pointwise_le cr cr'.
Proof.
  intros Llf Llc Llb Lcf Lcc Lcb Elf Elc Elb Ecf Ecc Ecb Hy.
  unfold Legacy.calculate_individual_carbon_costs,
    Current.calculate_individual_carbon_costs.
  cbv zeta.
  destruct (replacement_step_mono y y' _ _
    (fun r => r * nf * Legacy.carbon_cost lf * Legacy.size lf) Llf Elf
    ltac:(intro; cbv beta; ring) Hy) as (r1 & r1' & -> & -> & ? & ? & _).
  destruct (replacement_step_mono y y' _ _
    (fun r => r * nc * Legacy.carbon_cost lc * Legacy.size lc) Llc Elc
    ltac:(intro; cbv beta; ring) Hy) as (r2 & r2' & -> & -> & ? & ? & _).
  destruct (replacement_step_mono y y' _ _
    (fun r => r * nb * Legacy.carbon_cost lb * Legacy.size lb) Llb Elb
    ltac:(intro; cbv beta; ring) Hy) as (r3 & r3' & -> & -> & ? & ? & _).
  destruct (replacement_step_mono y y' _ _
    (fun r => r * nf * Current.initial (Current.embodied_cost cf)) Lcf Ecf
    ltac:(intro; cbv beta; ring) Hy) as (r4 & r4' & -> & -> & ? & ? & _).
  destruct (replacement_step_mono y y' _ _
    (fun r => r * nc * Current.initial (Current.embodied_cost cc)) Lcc Ecc
    ltac:(intro; cbv beta; ring) Hy) as (r5 & r5' & -> & -> & ? & ? & _).
  destruct (replacement_step_mono y y' _ _
    (fun r => r * nb * Current.initial (Current.embodied_cost cb)) Lcb Ecb
    ltac:(intro; cbv beta; ring) Hy) as (r6 & r6' & -> & -> & ? & ? & _).
  cbn [bind].
  do 16 eexists.
  do 4 (split; [reflexivity|]).
  unfold all_nonneg, pointwise_le.
  repeat split; repeat constructor; assumption.
Qed.

(** From 5 to 12 simulated years. *)
Lemma replacement_cost_monotone_in_years_witness :
  exists le la li lr le' la' li' lr' ce ca ci cr ce' ca' ci' cr' : list Q,
    Legacy.calculate_individual_carbon_costs Legacy.module_globals
      legacy_frontend legacy_cache legacy_backend 200 50 3704 0.25 5
      = Ok (le, la, li, lr) /\
    Legacy.calculate_individual_carbon_costs Legacy.module_globals
      legacy_frontend legacy_cache legacy_backend 200 50 3704 0.25 12
      = Ok (le', la', li', lr') /\
    Current.calculate_individual_carbon_costs sample_system
      (current_of_legacy "frontend" legacy_frontend)
      (current_of_legacy "cache" legacy_cache)
      (current_of_legacy "backend" legacy_backend) 200 50 3704 0.25 5
      = Ok (ce, ca, ci, cr) /\
    Current.calculate_individual_carbon_costs sample_system
      (current_of_legacy "frontend" legacy_frontend)
      (current_of_legacy "cache" legacy_cache)
      (current_of_legacy "backend" legacy_backend) 200 50 3704 0.25 12
      = Ok (ce', ca', ci', cr') /\
    all_nonneg lr /\ pointwise_le lr lr' /\
    all_nonneg cr /\ pointwise_le cr cr'.
Proof.
  apply (replacement_cost_monotone_in_years Legacy.module_globals
           sample_system legacy_frontend legacy_cache legacy_backend
           (current_of_legacy "frontend" legacy_frontend)
           (current_of_legacy "cache" legacy_cache)
           (current_of_legacy "backend" legacy_backend)
           200 50 3704 0.25 5 12); Qcompare.
Defined.

(** Products and sums of quantities that are not negative. *)
Ltac nonneg :=
  match goal with
  | |- 0 <= _ * _ => apply Qmult_le_0_compat; nonneg
  | |- 0 <= _ + _ =>
    apply (Qle_trans _ (0 + 0)); [Qcompare | apply Qplus_le_compat; nonneg]
  | |- 0 <= inject_Z _ => rewrite <- (Zle_Qle 0); unfold seconds_in_a_year; lia
  | |- 0 <= _ => first [ assumption | lra ]
  end.

Lemma legacy_carbon_costs_nonneg (g : Legacy.Globals)
    (f c b : Legacy.ServerConfig) (nf nc nb h : Q) (y : Z) :
  legacy_globals_fractions g ->
  legacy_config_nonneg f -> legacy_config_nonneg c -> legacy_config_nonneg b ->
  0 <= nf -> 0 <= nc -> 0 <= nb -> h <= 1 -> (0 <= y)%Z ->
  exists e a i r : list Q,
    Legacy.calculate_individual_carbon_costs g f c b nf nc nb h y
      = Ok (e, a, i, r) /\
    all_nonneg e /\ all_nonneg a /\ all_nonneg i /\ all_nonneg r.
Proof.
  intros ((R0 & R1) & (C0 & C1)) (Fc & Fr & Fw & Fi & Fl & Fs)
    (Cc & Cr & Cw & Ci & Cl & Cs) (Bc & Br & Bw & Bi & Bl & Bs)
    Hnf Hnc Hnb Hh Hy.
  unfold Legacy.calculate_individual_carbon_costs. cbv zeta.
  destruct (replacement_step_mono y y _ (nf * Legacy.carbon_cost f * Legacy.size f)
    (fun r => r * nf * Legacy.carbon_cost f * Legacy.size f) Fl
    ltac:(nonneg) ltac:(intro; cbv beta; ring) (Z.le_refl y))
    as (r1 & _ & -> & _ & ? & _).
  destruct (replacement_step_mono y y _ (nc * Legacy.carbon_cost c * Legacy.size c)
    (fun r => r * nc * Legacy.carbon_cost c * Legacy.size c) Cl
    ltac:(nonneg) ltac:(intro; cbv beta; ring) (Z.le_refl y))
    as (r2 & _ & -> & _ & ? & _).
  destruct (replacement_step_mono y y _ (nb * Legacy.carbon_cost b * Legacy.size b)
    (fun r => r * nb * Legacy.carbon_cost b * Legacy.size b) Bl
    ltac:(nonneg) ltac:(intro; cbv beta; ring) (Z.le_refl y))
    as (r3 & _ & -> & _ & ? & _).
  cbn [bind]. do 4 eexists. split; [reflexivity|].
  assert (W0 : 0 <= Legacy.WRITE_RATIO g) by (unfold Legacy.WRITE_RATIO; lra).
  assert (I0 : 0 <= 1 - Legacy.LOAD_CAPACITY g) by lra.
  assert (M0 : 0 <= 1 - h) by lra.
  unfold all_nonneg. repeat split; repeat constructor; nonneg.
Qed.

Lemma current_carbon_costs_nonneg (s : Current.SystemConfig)
    (f c b : Current.ServerConfig) (nf nc nb h : Q) (y : Z) :
  current_system_fractions s ->
  current_config_nonneg f -> current_config_nonneg c ->
  current_config_nonneg b ->
  0 <= nf -> 0 <= nc -> 0 <= nb -> h <= 1 -> (0 <= y)%Z ->
  exists e a i r : list Q,
    Current.calculate_individual_carbon_costs s f c b nf nc nb h y
      = Ok (e, a, i, r) /\
    all_nonneg e /\ all_nonneg a /\ all_nonneg i /\ all_nonneg r.
Proof.
  intros ((R0 & R1) & (C0 & C1) & K0) (Fc & Fr & Fw & Fi & Fl)
    (Cc & Cr & Cw & Ci & Cl) (Bc & Br & Bw & Bi & Bl)
    Hnf Hnc Hnb Hh Hy.
  unfold Current.calculate_individual_carbon_costs. cbv zeta.
  destruct (replacement_step_mono y y _
    (nf * Current.initial (Current.embodied_cost f))
    (fun r => r * nf * Current.initial (Current.embodied_cost f)) Fl
    ltac:(nonneg) ltac:(intro; cbv beta; ring) (Z.le_refl y))
    as (r1 & _ & -> & _ & ? & _).
  destruct (replacement_step_mono y y _
    (nc * Current.initial (Current.embodied_cost c))
    (fun r => r * nc * Current.initial (Current.embodied_cost c)) Cl
    ltac:(nonneg) ltac:(intro; cbv beta; ring) (Z.le_refl y))
    as (r2 & _ & -> & _ & ? & _).
  destruct (replacement_step_mono y y _
    (nb * Current.initial (Current.embodied_cost b))
    (fun r => r * nb * Current.initial (Current.embodied_cost b)) Bl
    ltac:(nonneg) ltac:(intro; cbv beta; ring) (Z.le_refl y))
    as (r3 & _ & -> & _ & ? & _).
  cbn [bind]. do 4 eexists. split; [reflexivity|].
  assert (W0 : 0 <= 1 - Current.read_write_ratio s) by lra.
  assert (I0 : 0 <= 1 - Current.active_idle_ratio s) by lra.
  assert (M0 : 0 <= 1 - h) by lra.
  unfold all_nonneg. repeat split; repeat constructor; nonneg.
Qed.

(** X11.  On figures that are not negative (costs, sizes, server counts,
    years), with positive lifespans, ratios between 0 and 1 and a hit rate
    of at most 1, no entry of the four cost lists is negative. *)
Theorem carbon_costs_nonnegative
    (g : Legacy.Globals) (s : Current.SystemConfig)
    (lf lc lb : Legacy.ServerConfig) (cf cc cb : Current.ServerConfig)
    (nf nc nb h : Q) (y : Z) :
  legacy_globals_fractions g ->
  legacy_config_nonneg lf -> legacy_config_nonneg lc ->
  legacy_config_nonneg lb ->
  current_system_fractions s ->
  current_config_nonneg cf -> current_config_nonneg cc ->
  current_config_nonneg cb ->
  0 <= nf -> 0 <= nc -> 0 <= nb -> h <= 1 -> (0 <= y)%Z ->
  (exists e a i r : list Q,
     Legacy.calculate_individual_carbon_costs g lf lc lb nf nc nb h y
       = Ok (e, a, i, r) /\
     all_nonneg e /\ all_nonneg a /\ all_nonneg i /\ all_nonneg r) /\
  (exists e a i r : list Q,
     Current.calculate_individual_carbon_costs s cf cc cb nf nc nb h y
       = Ok (e, a, i, r) /\
     all_nonneg e /\ all_nonneg a /\ all_nonneg i /\ all_nonneg r).
Proof.
  intros. split.
  - now apply legacy_carbon_costs_nonneg.
  - now apply current_carbon_costs_nonneg.
Qed.

(** The figures of the samples are as the statements ask. *)
Ltac sample_figures :=
  first [ Qcompare
        | unfold legacy_globals_fractions, legacy_config_nonneg,
            current_system_fractions, current_config_nonneg;
          cbn; repeat split; Qcompare ].

Lemma carbon_costs_nonnegative_witness :
  (exists e a i r : list Q,
     Legacy.calculate_individual_carbon_costs Legacy.module_globals
       legacy_frontend legacy_cache legacy_backend 200 50 3704 0.25 12
       = Ok (e, a, i, r) /\
     all_nonneg e /\ all_nonneg a /\ all_nonneg i /\ all_nonneg r) /\
  (exists e a i r : list Q,
     Current.calculate_individual_carbon_costs sample_system
       (current_of_legacy "frontend" legacy_frontend)
       (current_of_legacy "cache" legacy_cache)
       (current_of_legacy "backend" legacy_backend) 200 50 3704 0.25 12
       = Ok (e, a, i, r) /\
     all_nonneg e /\ all_nonneg a /\ all_nonneg i /\ all_nonneg r).
Proof.
  apply (carbon_costs_nonnegative Legacy.module_globals sample_system
           legacy_frontend legacy_cache legacy_backend
           (current_of_legacy "frontend" legacy_frontend)
           (current_of_legacy "cache" legacy_cache)
           (current_of_legacy "backend" legacy_backend)
           200 50 3704 0.25 12); sample_figures.
Defined.

(** ** Further properties: the whole run *)

(** X13.  The current run, with a total storage capacity that is not zero,
    raises [ZeroDivisionError] exactly when some tier's per-server
    throughput is zero, or the simulated years are positive and some
    tier's lifespan is zero; otherwise it returns its row. *)
Theorem current_run_raises_iff_zero_divisor
    (args : Current.Args) (s : Current.SystemConfig)
    (f c b : Current.ServerConfig) :
  ~ Current.storage_capacity s == 0 ->
  (Current.main args s f c b = Raise ZeroDivisionError
   <-> Current.throughput f == 0 \/ Current.throughput c == 0
       \/ Current.throughput b == 0
       \/ ((0 < Current.simulation_years args)%Z
           /\ (Current.lifespan f == 0 \/ Current.lifespan c == 0
               \/ Current.lifespan b == 0))) /\
  ((exists o : Current.Output, Current.main args s f c b = Ok o)
   <-> ~ Current.main args s f c b = Raise ZeroDivisionError).
Proof.
  intro Hs. split.
  - unfold Current.main.
    destruct (Qeq_dec (Current.throughput f) 0) as [Ef|Nf].
    { rewrite (proj2 (servers_needed_zero _ _ Ef)). cbn [bind]. tauto. }
    rewrite (proj2 (servers_needed_nonzero _ _ Nf)). cbn [bind].
    destruct (Qeq_dec (Current.throughput c) 0) as [Ec|Nc].
    { rewrite (proj2 (servers_needed_zero _ _ Ec)). cbn [bind]. tauto. }
    rewrite (proj2 (servers_needed_nonzero _ _ Nc)). cbn [bind].
    destruct (Qeq_dec (Current.throughput b) 0) as [Eb|Nb].
    { rewrite (proj2 (servers_needed_zero _ _ Eb)). cbn [bind]. tauto. }
    rewrite (proj2 (servers_needed_nonzero _ _ Nb)). cbn [bind].
    unfold Current.calculate_cache_hit_rate. cbv zeta.
    rewrite (py_div_ok _ _ Hs). cbn [bind].
    match goal with
    | |- context [Current.calculate_individual_carbon_costs ?s ?f ?c ?b
                    ?nf ?nc ?nb ?h ?y] =>
      generalize (current_carbon_costs_raise_iff s f c b nf nc nb h y);
      destruct (Current.calculate_individual_carbon_costs s f c b
                  nf nc nb h y) as [[[[ee aa] ii] rr]|[]]
    end; cbn [bind]; intros [H1 H2].
    + split; [discriminate|].
      intros [E|[E|[E|E]]]; try contradiction.
      specialize (H2 E). discriminate.
    + split; [|reflexivity]. intros _. right. right. right.
      now apply H1.
  - destruct (Current.main args s f c b) as [o|[]].
    + split; [discriminate|]. intros _. now exists o.
    + split; [intros [o Ho]; discriminate|]. intro N. now contradiction N.
Qed.

(** A backend file with lifespan 0. *)
Lemma current_run_raises_iff_zero_divisor_witness :
  (Current.main current_args sample_system
     (current_of_legacy "frontend" legacy_frontend)
     (current_of_legacy "cache" legacy_cache)
     broken_backend = Raise ZeroDivisionError
   <-> Current.throughput (current_of_legacy "frontend" legacy_frontend) == 0
       \/ Current.throughput (current_of_legacy "cache" legacy_cache) == 0
       \/ Current.throughput broken_backend == 0
       \/ ((0 < Current.simulation_years current_args)%Z
           /\ (Current.lifespan (current_of_legacy "frontend" legacy_frontend)
               == 0
               \/ Current.lifespan (current_of_legacy "cache" legacy_cache)
                  == 0
               \/ Current.lifespan broken_backend == 0))) /\
  ((exists o : Current.Output,
      Current.main current_args sample_system
        (current_of_legacy "frontend" legacy_frontend)
        (current_of_legacy "cache" legacy_cache)
        broken_backend = Ok o)
   <-> ~ Current.main current_args sample_system
           (current_of_legacy "frontend" legacy_frontend)
           (current_of_legacy "cache" legacy_cache)
           broken_backend = Raise ZeroDivisionError).
Proof.
  apply (current_run_raises_iff_zero_divisor current_args sample_system
           (current_of_legacy "frontend" legacy_frontend)
           (current_of_legacy "cache" legacy_cache) broken_backend).
  Qcompare.
Defined.

(** The run on that file does raise. *)
Example current_run_on_zero_lifespan :
  Current.main current_args sample_system
    (current_of_legacy "frontend" legacy_frontend)
    (current_of_legacy "cache" legacy_cache)
    broken_backend = Raise ZeroDivisionError.
Proof. vm_compute. reflexivity. Qed.

Lemma py_sum_from_nonneg (l : list Q) (acc : Q) :
  0 <= acc -> all_nonneg l -> 0 <= fold_left Qplus l acc.
Proof.
  revert acc. induction l as [|x l IH]; intros acc Ha Hl; simpl.
  - exact Ha.
  - inversion Hl as [|? ? Hx Hl']; subst.
    apply IH; [|exact Hl']. lra.
Qed.

Lemma py_sum_nonneg (l : list Q) : all_nonneg l -> 0 <= py_sum l.
Proof. apply py_sum_from_nonneg. lra. Qed.

Lemma item_nonneg (l : list Q) (i : nat) : all_nonneg l -> 0 <= item l i.
Proof.
  unfold item. revert i. induction l as [|x l IH]; intros i Hl.
  - destruct i; simpl; lra.
  - inversion Hl as [|? ? Hx Hl']; subst.
    destruct i; simpl; [exact Hx|now apply IH].
Qed.

Lemma np_ceil_nonneg (t p : Q) : 0 <= t -> 0 < p -> 0 <= np_ceil (t / p).
Proof.
  intros Ht Hp. eapply Qle_trans; [|apply np_ceil_bounds].
  now apply Qdiv_nonneg.
Qed.

(** Every entry of the built-in tables is a figure as [legacy_config_nonneg]
    asks, and the module constants are fractions. *)
Lemma legacy_tables_nonneg (hf : Legacy.frontend_hardware)
    (hc : Legacy.cache_hardware) (hb : Legacy.backend_hardware) :
  legacy_config_nonneg (Legacy.ServerConfig_init hf Legacy.FrontendParams) /\
  legacy_config_nonneg (Legacy.ServerConfig_init hc Legacy.CacheParams) /\
  legacy_config_nonneg (Legacy.ServerConfig_init hb Legacy.BackendParams) /\
  legacy_globals_fractions Legacy.module_globals.
Proof.
  unfold legacy_config_nonneg, legacy_globals_fractions.
  destruct hf, hc, hb; cbn; repeat split; Qcompare.
Qed.

(** X14.  Whatever hardware is chosen from the built-in tables, a legacy
    run for an SLO throughput and a number of years that are not negative
    returns a row whose server counts are not negative, whose cache hit
    rate lies in [[0, 1]], and whose four cost columns and cumulative
    carbon cost are not negative. *)
Theorem legacy_run_within_bounds (args : Legacy.Args) :
  (0 <= Legacy.slo_throughput args)%Z ->
  (0 <= Legacy.simulation_years args)%Z ->
  exists o : Legacy.Output,
    Legacy.main args = Ok o /\
    (0 <= Legacy.row_frontend_servers (Legacy.row o) /\
     0 <= Legacy.row_cache_servers (Legacy.row o) /\
     0 <= Legacy.row_backend_servers (Legacy.row o)) /\
    (0 <= Legacy.row_cache_hit_rate (Legacy.row o) /\
     Legacy.row_cache_hit_rate (Legacy.row o) <= 1) /\
    (0 <= Legacy.row_embodied_cost (Legacy.row o) /\
     0 <= Legacy.row_active_cost (Legacy.row o) /\
     0 <= Legacy.row_idle_cost (Legacy.row o) /\
     0 <= Legacy.row_replacement_cost (Legacy.row o)) /\
    0 <= Legacy.row_cumulative_carbon_cost (Legacy.row o).
Proof.
  intros Ht Hy.
  set (t := inject_Z (Legacy.slo_throughput args)).
  assert (Ht' : 0 <= t) by (subst t; now rewrite <- (Zle_Qle 0)).
  destruct (legacy_tables_positive (Legacy.frontend args) (Legacy.cache args)
              (Legacy.backend args)) as ((Tf & Tc & Tb) & _).
  destruct (legacy_tables_nonneg (Legacy.frontend args) (Legacy.cache args)
              (Legacy.backend args)) as (Nf & Nc & Nb & Ng).
  unfold Legacy.main. cbv zeta. fold t.
  set (f := Legacy.ServerConfig_init (Legacy.frontend args)
              Legacy.FrontendParams) in *.
  set (c := Legacy.ServerConfig_init (Legacy.cache args)
              Legacy.CacheParams) in *.
  set (b := Legacy.ServerConfig_init (Legacy.backend args)
              Legacy.BackendParams) in *.
  rewrite (proj1 (servers_needed_nonzero t _ (Qlt_0_neq _ Tf))).
  rewrite (proj1 (servers_needed_nonzero t _ (Qlt_0_neq _ Tc))).
  rewrite (proj1 (servers_needed_nonzero t _ (Qlt_0_neq _ Tb))).
  cbn [bind].
  assert (Sf := np_ceil_nonneg t _ Ht' Tf).
  assert (Sc := np_ceil_nonneg t _ Ht' Tc).
  assert (Sb := np_ceil_nonneg t _ Ht' Tb).
  unfold Legacy.calculate_cache_hit_rate. cbv zeta.
  rewrite py_div_ok by Qcompare. cbn [bind].
  match goal with
  | |- context [py_min 1 [?x]] =>
    assert (Hh : 0 <= py_min 1 [x] /\ py_min 1 [x] <= 1);
    [ apply hit_rate_clamp_bounds; apply Qdiv_nonneg; [|Qcompare];
      apply Qmult_le_0_compat; [apply Nc | exact Sc]
    | set (hit := py_min 1 [x]) in * ]
  end.
  destruct (legacy_carbon_costs_nonneg Legacy.module_globals f c b
              _ _ _ hit (Legacy.simulation_years args)
              Ng Nf Nc Nb Sf Sc Sb (proj2 Hh) Hy)
    as (e & a & i & r & -> & He & Ha & Hi & Hr).
  cbn [bind]. eexists. split; [reflexivity|].
  cbn [Legacy.row Legacy.row_frontend_servers Legacy.row_cache_servers
       Legacy.row_backend_servers Legacy.row_cache_hit_rate
       Legacy.row_embodied_cost Legacy.row_active_cost Legacy.row_idle_cost
       Legacy.row_replacement_cost Legacy.row_cumulative_carbon_cost].
  split; [repeat split; assumption|].
  split; [exact Hh|].
  split; [repeat split; now apply py_sum_nonneg|].
  assert (forall k : nat, 0 <= item e k) by (intro; now apply item_nonneg).
  assert (forall k : nat, 0 <= item a k) by (intro; now apply item_nonneg).
  assert (forall k : nat, 0 <= item i k) by (intro; now apply item_nonneg).
  assert (forall k : nat, 0 <= item r k) by (intro; now apply item_nonneg).
  repeat (apply (Qle_trans _ (0 + 0)); [Qcompare | apply Qplus_le_compat]);
    auto.
Qed.

Lemma legacy_run_within_bounds_witness :
  exists o : Legacy.Output,
    Legacy.main legacy_args = Ok o /\
    (0 <= Legacy.row_frontend_servers (Legacy.row o) /\
     0 <= Legacy.row_cache_servers (Legacy.row o) /\
     0 <= Legacy.row_backend_servers (Legacy.row o)) /\
    (0 <= Legacy.row_cache_hit_rate (Legacy.row o) /\
     Legacy.row_cache_hit_rate (Legacy.row o) <= 1) /\
    (0 <= Legacy.row_embodied_cost (Legacy.row o) /\
     0 <= Legacy.row_active_cost (Legacy.row o) /\
     0 <= Legacy.row_idle_cost (Legacy.row o) /\
     0 <= Legacy.row_replacement_cost (Legacy.row o)) /\
    0 <= Legacy.row_cumulative_carbon_cost (Legacy.row o).
Proof.
  apply (legacy_run_within_bounds legacy_args); simpl; lia.
Defined.

(** ** Further properties: loading the configuration files *)

Section LoadConfig.

Variable JSON : Type.
Variable json_load : string -> option JSON.

(** X16.  Given an empty path, [load_config] announces the default path
    and reads it without any handler: a default file that is missing or
    does not parse ends in an uncaught exception, never in the exit with
    status 1 that a given path gets. *)
Theorem load_config_default_unguarded
    (files : Loader.Files) (default : string) :
  let line :=
    ("No configuration file provided, using default: " ++ default)%string in
  fst (Loader.load_config JSON json_load files "" default) = [line] /\
  (snd (Loader.load_config JSON json_load files "" default)
   = Loader.Uncaught Loader.FileNotFoundError
   <-> files default = None) /\
  (snd (Loader.load_config JSON json_load files "" default)
   = Loader.Uncaught Loader.JSONDecodeError
   <-> exists text : string,
         files default = Some text /\ json_load text = None) /\
  (forall content : JSON,
     snd (Loader.load_config JSON json_load files "" default) = Loader.Returned content
     <-> exists text : string,
           files default = Some text /\ json_load text = Some content) /\
  (forall status : Z,
     snd (Loader.load_config JSON json_load files "" default) <> Loader.SystemExit status).
Proof.
  cbv zeta. unfold Loader.load_config. cbn [Loader.truthy].
  destruct (files default) as [text|].
  - destruct (json_load text) as [content|] eqn:J; cbn [fst snd].
    + split; [reflexivity|]. split; [split; discriminate|].
      split; [split; [discriminate|intros (t & E & Ht); congruence]|].
      split; [|discriminate].
      intro c. split.
      * intro H. injection H as <-. now exists text.
      * intros (t & E & Ht). congruence.
    + split; [reflexivity|]. split; [split; discriminate|].
      split; [split; [intros _; now exists text|reflexivity]|].
      split; [|discriminate].
      intro c. split; [discriminate|].
      intros (t & E & Ht). congruence.
  - cbn [fst snd]. split; [reflexivity|]. split; [split; reflexivity|].
    split; [split; [discriminate|intros (t & E & _); discriminate]|].
    split; [|discriminate].
    intro c. split; [discriminate|intros (t & E & _); discriminate].
Qed.

End LoadConfig.

(** ** Further properties: the plotting script *)

Lemma Qlt_bool_cases (a b : Q) :
  (Qlt_bool a b = true /\ a < b) \/ (Qlt_bool a b = false /\ b <= a).
Proof.
  destruct (Qlt_bool a b) eqn:E.
  - left. split; [reflexivity|]. now apply Qlt_bool_iff.
  - right. split; [reflexivity|]. now apply Qlt_bool_false_iff.
Qed.

(** [idxmin] picks a row that is strictly cheaper than every row before it
    and at most as dear as every row after it. *)
Lemma idxmin_first_least (others : list Current.Row) (best : Current.Row) :
  exists before after : list Current.Row,
    best :: others = before ++ PlotResults.idxmin best others :: after /\
    (forall r, In r before ->
       Current.row_cumulative_carbon_cost (PlotResults.idxmin best others)
       < Current.row_cumulative_carbon_cost r) /\
    (forall r, In r after ->
       Current.row_cumulative_carbon_cost (PlotResults.idxmin best others)
       <= Current.row_cumulative_carbon_cost r).
Proof.
  revert best. induction others as [|row rest IH]; intro best.
  - exists [], []. simpl. repeat split; intros r [].
  - simpl.
    destruct (Qlt_bool_cases (Current.row_cumulative_carbon_cost row)
                (Current.row_cumulative_carbon_cost best)) as [[-> H]|[-> H]].
    + destruct (IH row) as (before & after & E & Hb & Ha).
      set (m := PlotResults.idxmin row rest) in *.
      assert (Hm : Current.row_cumulative_carbon_cost m
                   <= Current.row_cumulative_carbon_cost row).
      { assert (Hin : In row (before ++ m :: after))
          by (rewrite <- E; now left).
        apply in_app_or in Hin. destruct Hin as [Hin|[Hin|Hin]].
        - apply Qlt_le_weak. now apply Hb.
        - rewrite Hin. apply Qle_refl.
        - now apply Ha. }
      exists (best :: before), after. split; [simpl; now rewrite E|].
      split; [|exact Ha].
      intros r [<-|Hr]; [|now apply Hb].
      eapply Qle_lt_trans; eassumption.
    + destruct (IH best) as (before & after & E & Hb & Ha).
      set (m := PlotResults.idxmin best rest) in *.
      destruct before as [|b0 bs]; simpl in E.
      * injection E as Em Er. clearbody m. subst.
        exists [], (row :: after). simpl.
        split; [reflexivity|]. split; [intros r []|].
        intros r [<-|Hr]; [exact H|now apply Ha].
      * injection E as Eb Er. subst b0.
        exists (best :: row :: bs), after. rewrite Er. simpl.
        split; [reflexivity|]. split; [|exact Ha].
        intros r [<-|[<-|Hr]].
        -- apply Hb. now left.
        -- eapply Qlt_le_trans; [apply Hb; now left|exact H].
        -- apply Hb. now right.
Qed.

(** X18.  When the arguments parse, the results file reads and some row
    has the SLO latency and SLO throughput asked for, the script plots,
    and the configuration it reports as the lowest is a row of the file
    with that SLO whose cumulative carbon cost is at most that of every
    matching row and strictly below that of every matching row before it
    in the file. *)
Theorem plot_reports_first_cheapest_match
    (py_int : string -> option Z)
    (read_csv : string -> option (list Current.Row))
    (a0 a1 a2 a3 a4 : string) (l t y : Z) (results : list Current.Row) :
  py_int a1 = Some l -> py_int a2 = Some t -> py_int a3 = Some y ->
  read_csv a4 = Some results ->
  (exists r, In r results /\ PlotResults.matches l t r = true) ->
  exists p : PlotResults.Plots,
    PlotResults.plot_results py_int read_csv [a0; a1; a2; a3; a4]
    = PlotResults.Plotted p /\
    In (PlotResults.lowest_cost_row p) results /\
    PlotResults.matches l t (PlotResults.lowest_cost_row p) = true /\
    exists before after : list Current.Row,
      filter (PlotResults.matches l t) results
      = before ++ PlotResults.lowest_cost_row p :: after /\
      (forall r, In r before ->
         Current.row_cumulative_carbon_cost (PlotResults.lowest_cost_row p)
         < Current.row_cumulative_carbon_cost r) /\
      (forall r, In r after ->
         Current.row_cumulative_carbon_cost (PlotResults.lowest_cost_row p)
         <= Current.row_cumulative_carbon_cost r).
Proof.
  intros H1 H2 H3 H4 (r0 & Hin & Hm).
  unfold PlotResults.plot_results. rewrite H1, H2, H3, H4.
  destruct (filter (PlotResults.matches l t) results) as [|first others] eqn:F.
  - exfalso.
    assert (Hf : In r0 (filter (PlotResults.matches l t) results))
      by (apply filter_In; now split).
    rewrite F in Hf. exact Hf.
  - eexists. split; [reflexivity|]. cbn [PlotResults.lowest_cost_row].
    destruct (idxmin_first_least others first) as (before & after & E & Hb & Ha).
    assert (Hin' : In (PlotResults.idxmin first others)
                     (filter (PlotResults.matches l t) results)).
    { rewrite F, E. apply in_or_app. right. now left. }
    apply filter_In in Hin'. destruct Hin' as [Hi Hmm].
    split; [exact Hi|]. split; [exact Hmm|].
    exists before, after. split; [exact E|]. split; assumption.
Qed.

Lemma plot_reports_first_cheapest_match_witness :
  exists p : PlotResults.Plots,
    PlotResults.plot_results sample_py_int sample_read_csv
      ["plot_results.py"; "100"; "1000"; "10"; "results.csv"]%string
    = PlotResults.Plotted p /\
    In (PlotResults.lowest_cost_row p) sample_results /\
    PlotResults.matches 100 1000 (PlotResults.lowest_cost_row p) = true /\
    exists before after : list Current.Row,
      filter (PlotResults.matches 100 1000) sample_results
      = before ++ PlotResults.lowest_cost_row p :: after /\
      (forall r, In r before ->
         Current.row_cumulative_carbon_cost (PlotResults.lowest_cost_row p)
         < Current.row_cumulative_carbon_cost r) /\
      (forall r, In r after ->
         Current.row_cumulative_carbon_cost (PlotResults.lowest_cost_row p)
         <= Current.row_cumulative_carbon_cost r).
Proof.
  apply (plot_reports_first_cheapest_match sample_py_int sample_read_csv
           "plot_results.py" "100" "1000" "10" "results.csv" 100 1000 10
           sample_results); try reflexivity.
  exists (sample_row 100 1000 "A" 500 30 20 0 10).
  split; [now left|reflexivity].
Defined.

(** On the sample results the script reports B: as cheap as D and before
    it, although C is cheaper (another SLO) and although B was simulated
    over 12 years and the script was asked for 10. *)
Example plot_reports_row_B :
  exists p : PlotResults.Plots,
    PlotResults.plot_results sample_py_int sample_read_csv
      ["plot_results.py"; "100"; "1000"; "10"; "results.csv"]%string
    = PlotResults.Plotted p /\
    PlotResults.lowest_cost_row p = sample_row 100 1000 "B" 300 40 10 50 12 /\
    map PlotResults.tick (PlotResults.breakdown p)
    = [ "Frontend: A - Cache: A - Backend: A";
        "Frontend: B - Cache: B - Backend: B";
        "Frontend: D - Cache: D - Backend: D" ]%string.
Proof. eexists. split; [reflexivity|]. split; reflexivity. Qed.

Lemma no_match_iff_filter_empty (l t : Z) (results : list Current.Row) :
  filter (PlotResults.matches l t) results = []
  <-> (forall r, In r results -> PlotResults.matches l t r = false).
Proof.
  split.
  - intros F r Hin.
    destruct (PlotResults.matches l t r) eqn:M; [|reflexivity].
    assert (Hf : In r (filter (PlotResults.matches l t) results))
      by (apply filter_In; now split).
    rewrite F in Hf. destruct Hf.
  - intro H. induction results as [|r rest IH]; [reflexivity|].
    simpl. rewrite (H r (or_introl eq_refl)). apply IH.
    intros r' Hr'. apply H. now right.
Qed.

(** X19.  The script's ways out, stage by stage: it prints the usage and
    exits with status 1 exactly when it does not get four arguments; given
    four, [int] fails exactly when one of the first three is no integer
    (the years included, though they only name the saved files); the read
    fails only after all three parsed; and it exits with status 1 for want
    of results exactly when the file was read and no row has both the SLO
    latency and the SLO throughput asked for. *)
Theorem plot_outcome_by_stage
    (py_int : string -> option Z)
    (read_csv : string -> option (list Current.Row)) :
  (forall argv : list string,
     List.length argv <> 5%nat
     <-> PlotResults.plot_results py_int read_csv argv
         = PlotResults.Exit 1 PlotResults.Usage) /\
  (forall a0 a1 a2 a3 a4 : string,
     let run :=
       PlotResults.plot_results py_int read_csv [a0; a1; a2; a3; a4] in
     (run = PlotResults.Raised PlotResults.ValueError
      <-> py_int a1 = None \/ py_int a2 = None \/ py_int a3 = None) /\
     (run = PlotResults.Raised PlotResults.ReadError
      <-> py_int a1 <> None /\ py_int a2 <> None /\ py_int a3 <> None
          /\ read_csv a4 = None) /\
     (forall l t : Z,
        run = PlotResults.Exit 1 (PlotResults.NoResultsFound l t)
        <-> py_int a1 = Some l /\ py_int a2 = Some t /\ py_int a3 <> None
            /\ exists results : list Current.Row,
                 read_csv a4 = Some results /\
                 forall r, In r results ->
                           PlotResults.matches l t r = false)).
Proof.
  split.
  - intro argv. unfold PlotResults.plot_results.
    destruct argv as [|a0 [|a1 [|a2 [|a3 [|a4 [|a5 rest]]]]]]; simpl;
      try (split; [reflexivity|intros _; lia]).
    split; [intro H; now contradiction H|].
    destruct (py_int a1); [|discriminate].
    destruct (py_int a2); [|discriminate].
    destruct (py_int a3); [|discriminate].
    destruct (read_csv a4) as [results|]; [|discriminate].
    destruct (filter _ results); discriminate.
  - intros a0 a1 a2 a3 a4. cbv zeta. unfold PlotResults.plot_results.
    destruct (py_int a1) as [l|].
    2:{ split; [split; [tauto|reflexivity]|].
        split; [split; [discriminate|intros (N & _); now contradiction N]|].
        intros l' t'. split; [discriminate|intros (N & _); discriminate]. }
    destruct (py_int a2) as [t|].
    2:{ split; [split; [tauto|reflexivity]|].
        split; [split; [discriminate|intros (_ & N & _); now contradiction N]|].
        intros l' t'. split; [discriminate|intros (_ & N & _); discriminate]. }
    destruct (py_int a3) as [y|].
    2:{ split; [split; [tauto|reflexivity]|].
        split; [split;
                [discriminate|intros (_ & _ & N & _); now contradiction N]|].
        intros l' t'.
        split; [discriminate|intros (_ & _ & N & _); now contradiction N]. }
    destruct (read_csv a4) as [results|].
    2:{ split; [split; [discriminate|intros [N|[N|N]]; discriminate]|].
        split; [split; [intros _; repeat split; discriminate|reflexivity]|].
        intros l' t'.
        split; [discriminate|intros (_ & _ & _ & rs & N & _); discriminate]. }
    destruct (filter (PlotResults.matches l t) results) as [|first others]
      eqn:F.
    + split; [split; [discriminate|intros [N|[N|N]]; discriminate]|].
      split; [split; [discriminate|intros (_ & _ & _ & N); discriminate]|].
      intros l' t'. split.
      * intro H. injection H as <- <-.
        repeat split; try discriminate.
        exists results. split; [reflexivity|].
        now apply no_match_iff_filter_empty.
      * intros (E1 & E2 & _ & rs & E4 & Hno).
        injection E1 as <-. injection E2 as <-. reflexivity.
    + split; [split; [discriminate|intros [N|[N|N]]; discriminate]|].
      split; [split; [discriminate|intros (_ & _ & _ & N); discriminate]|].
      intros l' t'. split; [discriminate|].
      intros (E1 & E2 & _ & rs & E4 & Hno).
      injection E1 as <-. injection E2 as <-. injection E4 as <-.
      apply no_match_iff_filter_empty in Hno. congruence.
Qed.

(** X20.  The years given on the command line reach nothing but the names
    of the saved figures: with another (parsable) value the script ends
    the same way, reports the same configuration and draws the same bars;
    rows simulated over other years are neither filtered out nor
    marked. *)
Theorem plot_years_only_name_files
    (py_int : string -> option Z)
    (read_csv : string -> option (list Current.Row))
    (a0 a1 a2 a3 a3' a4 : string) (y y' : Z) :
  py_int a3 = Some y -> py_int a3' = Some y' ->
  same_but_file_years
    (PlotResults.plot_results py_int read_csv [a0; a1; a2; a3; a4])
    (PlotResults.plot_results py_int read_csv [a0; a1; a2; a3'; a4]) /\
  (forall p : PlotResults.Plots,
     PlotResults.plot_results py_int read_csv [a0; a1; a2; a3; a4]
     = PlotResults.Plotted p ->
     PlotResults.tag_simulation_years (PlotResults.saved_as p) = y).
Proof.
  intros H3 H3'. unfold PlotResults.plot_results. rewrite H3, H3'.
  destruct (py_int a1) as [l|]; [|split; [reflexivity|discriminate]].
  destruct (py_int a2) as [t|]; [|split; [reflexivity|discriminate]].
  destruct (read_csv a4) as [results|]; [|split; [reflexivity|discriminate]].
  destruct (filter (PlotResults.matches l t) results) as [|first others].
  - split; [split; reflexivity|discriminate].
  - split; [repeat split|].
    intros p H. injection H as <-. reflexivity.
Qed.

Lemma plot_years_only_name_files_witness :
  same_but_file_years
    (PlotResults.plot_results sample_py_int sample_read_csv
       ["plot_results.py"; "100"; "1000"; "10"; "results.csv"]%string)
    (PlotResults.plot_results sample_py_int sample_read_csv
       ["plot_results.py"; "100"; "1000"; "7"; "results.csv"]%string) /\
  (forall p : PlotResults.Plots,
     PlotResults.plot_results sample_py_int sample_read_csv
       ["plot_results.py"; "100"; "1000"; "10"; "results.csv"]%string
     = PlotResults.Plotted p ->
     PlotResults.tag_simulation_years (PlotResults.saved_as p) = 10%Z).
Proof.
  apply (plot_years_only_name_files sample_py_int sample_read_csv
           "plot_results.py" "100" "1000" "10" "7" "results.csv" 10 7);
    reflexivity.
Defined.

(** X22.  On configuration files with meaningful figures (positive
    per-server throughputs, lifespans and total storage capacity; costs,
    powers and cache capacity not negative; ratios between 0 and 1), a
    current run for an SLO throughput and a number of years that are not
    negative returns a row whose server counts are not negative, whose
    cache hit rate lies in [[0, 1]], and whose four cost columns and
    cumulative carbon cost are not negative. *)
Theorem current_run_within_bounds
    (args : Current.Args) (s : Current.SystemConfig)
    (f c b : Current.ServerConfig) :
  (0 <= Current.slo_throughput args)%Z ->
  (0 <= Current.simulation_years args)%Z ->
  0 < Current.throughput f -> 0 < Current.throughput c ->
  0 < Current.throughput b ->
  0 <= Current.capacity c -> 0 < Current.storage_capacity s ->
  current_system_fractions s ->
  current_config_nonneg f -> current_config_nonneg c ->
  current_config_nonneg b ->
  exists o : Current.Output,
    Current.main args s f c b = Ok o /\
    (0 <= Current.row_frontend_servers (Current.row o) /\
     0 <= Current.row_cache_servers (Current.row o) /\
     0 <= Current.row_backend_servers (Current.row o)) /\
    (0 <= Current.row_cache_hit_rate (Current.row o) /\
     Current.row_cache_hit_rate (Current.row o) <= 1) /\
    (0 <= Current.row_embodied_cost (Current.row o) /\
     0 <= Current.row_active_cost (Current.row o) /\
     0 <= Current.row_idle_cost (Current.row o) /\
     0 <= Current.row_replacement_cost (Current.row o)) /\
    0 <= Current.row_cumulative_carbon_cost (Current.row o).
Proof.
  intros Ht Hy Tf Tc Tb Hcap Hst Ns Nf Nc Nb.
  set (t := inject_Z (Current.slo_throughput args)).
  assert (Ht' : 0 <= t) by (subst t; now rewrite <- (Zle_Qle 0)).
  unfold Current.main. fold t.
  rewrite (proj2 (servers_needed_nonzero t _ (Qlt_0_neq _ Tf))).
  rewrite (proj2 (servers_needed_nonzero t _ (Qlt_0_neq _ Tc))).
  rewrite (proj2 (servers_needed_nonzero t _ (Qlt_0_neq _ Tb))).
  cbn [bind].
  assert (Sf := np_ceil_nonneg t _ Ht' Tf).
  assert (Sc := np_ceil_nonneg t _ Ht' Tc).
  assert (Sb := np_ceil_nonneg t _ Ht' Tb).
  unfold Current.calculate_cache_hit_rate. cbv zeta.
  rewrite (py_div_ok _ _ (Qlt_0_neq _ Hst)). cbn [bind].
  match goal with
  | |- context [py_min 1 [?x]] =>
    assert (Hh : 0 <= py_min 1 [x] /\ py_min 1 [x] <= 1);
    [ apply hit_rate_clamp_bounds; apply Qdiv_nonneg; [|exact Hst];
      apply Qmult_le_0_compat; [exact Hcap | exact Sc]
    | set (hit := py_min 1 [x]) in * ]
  end.
  destruct (current_carbon_costs_nonneg s f c b
              _ _ _ hit (Current.simulation_years args)
              Ns Nf Nc Nb Sf Sc Sb (proj2 Hh) Hy)
    as (e & a & i & r & -> & He & Ha & Hi & Hr).
  cbn [bind]. eexists. split; [reflexivity|].
  cbn [Current.row Current.row_frontend_servers Current.row_cache_servers
       Current.row_backend_servers Current.row_cache_hit_rate
       Current.row_embodied_cost Current.row_active_cost Current.row_idle_cost
       Current.row_replacement_cost Current.row_cumulative_carbon_cost].
  split; [repeat split; assumption|].
  split; [exact Hh|].
  split; [repeat split; now apply py_sum_nonneg|].
  assert (forall k : nat, 0 <= item e k) by (intro; now apply item_nonneg).
  assert (forall k : nat, 0 <= item a k) by (intro; now apply item_nonneg).
  assert (forall k : nat, 0 <= item i k) by (intro; now apply item_nonneg).
  assert (forall k : nat, 0 <= item r k) by (intro; now apply item_nonneg).
  repeat (apply (Qle_trans _ (0 + 0)); [Qcompare | apply Qplus_le_compat]);
    auto.
Qed.

Lemma current_run_within_bounds_witness :
  exists o : Current.Output,
    Current.main current_args sample_system
      (current_of_legacy "frontend" legacy_frontend)
      (current_of_legacy "cache" legacy_cache)
      (current_of_legacy "backend" legacy_backend) = Ok o /\
    (0 <= Current.row_frontend_servers (Current.row o) /\
     0 <= Current.row_cache_servers (Current.row o) /\
     0 <= Current.row_backend_servers (Current.row o)) /\
    (0 <= Current.row_cache_hit_rate (Current.row o) /\
     Current.row_cache_hit_rate (Current.row o) <= 1) /\
    (0 <= Current.row_embodied_cost (Current.row o) /\
     0 <= Current.row_active_cost (Current.row o) /\
     0 <= Current.row_idle_cost (Current.row o) /\
     0 <= Current.row_replacement_cost (Current.row o)) /\
    0 <= Current.row_cumulative_carbon_cost (Current.row o).
Proof.
  apply (current_run_within_bounds current_args sample_system
           (current_of_legacy "frontend" legacy_frontend)
           (current_of_legacy "cache" legacy_cache)
           (current_of_legacy "backend" legacy_backend));
    first [ simpl; lia | sample_figures ].
Defined.

(** ** Further properties: building the configuration objects *)

(** X23.  [SystemConfig(params)] and [ServerConfig(params)] raise the
    [KeyError] of the first key, in the order of their assignments, that
    the dict lacks; when no key is missing they return an object whose
    attributes are the values at those keys; and keys they do not read
    change nothing. *)
Theorem constructors_raise_first_missing_key
    (V : Type) (params : Objects.Dict V) :
  match first_missing params system_keys with
  | Some key => Objects.SystemConfig_init params = Objects.KeyError key
  | None =>
    exists config : Objects.SystemConfig V,
      Objects.SystemConfig_init params = Objects.Built config /\
      params "latency"%string = Some (Objects.sys_latency V config) /\
      params "storage_capacity"%string
      = Some (Objects.storage_capacity V config) /\
      params "active_idle_ratio"%string
      = Some (Objects.active_idle_ratio V config) /\
      params "read_write_ratio"%string
      = Some (Objects.read_write_ratio V config) /\
      params "carbon_intensity"%string
      = Some (Objects.carbon_intensity V config)
  end /\
  match first_missing params server_keys with
  | Some key => Objects.ServerConfig_init params = Objects.KeyError key
  | None =>
    exists config : Objects.ServerConfig V,
      Objects.ServerConfig_init params = Objects.Built config /\
      params "name"%string = Some (Objects.name V config) /\
      params "latency"%string = Some (Objects.latency V config) /\
      params "throughput"%string = Some (Objects.throughput V config) /\
      params "embodied_cost"%string
      = Some (Objects.embodied_cost V config) /\
      params "power_consumption"%string
      = Some (Objects.power_consumption V config) /\
      params "lifespan"%string = Some (Objects.lifespan V config) /\
      params "capacity"%string = Some (Objects.capacity V config)
  end /\
  (forall params' : Objects.Dict V,
     (forall key, In key system_keys -> params' key = params key) ->
     Objects.SystemConfig_init params' = Objects.SystemConfig_init params) /\
  (forall params' : Objects.Dict V,
     (forall key, In key server_keys -> params' key = params key) ->
     Objects.ServerConfig_init params' = Objects.ServerConfig_init params).
Proof.
  split; [|split; [|split]].
  - unfold first_missing, system_keys, Objects.SystemConfig_init,
      Objects.getitem. cbn [find].
    repeat match goal with
    | |- context [params ?k] =>
      destruct (params k); cbn [Objects.then_]; [|reflexivity]
    end.
    eexists. split; [reflexivity|]. cbn. repeat split.
  - unfold first_missing, server_keys, Objects.ServerConfig_init,
      Objects.getitem. cbn [find].
    repeat match goal with
    | |- context [params ?k] =>
      destruct (params k); cbn [Objects.then_]; [|reflexivity]
    end.
    eexists. split; [reflexivity|]. cbn. repeat split.
  - intros params' H. unfold Objects.SystemConfig_init, Objects.getitem.
    rewrite !H by (unfold system_keys; simpl; tauto). reflexivity.
  - intros params' H. unfold Objects.ServerConfig_init, Objects.getitem.
    rewrite !H by (unfold server_keys; simpl; tauto). reflexivity.
Qed.

(** ** The claims that rounding decides, evaluated in binary64 *)

Section Binary64Evaluations.

Import Floats.
Local Open Scope float_scope.

(** C1.  [calculate_servers_needed(1000, 52.63157894736842)]: the quotient
    rounds to 19.0 and both scripts return 19 servers, whose aggregate
    999.9999999999999 is below the load.  The per-server throughput stands
    for a rational [p] just below 1000/19, so the ceiling of the exact
    quotient, which the formulas over the rationals return, is 20, and
    19 servers do not carry 1000. *)
Theorem servers_needed_binary64_falls_short :
  Binary64.Legacy.calculate_servers_needed 1000 52.63157894736842 = Ok 19 /\
  Binary64.Current.calculate_servers_needed 1000 52.63157894736842 = Ok 19 /\
  19 * 52.63157894736842 = 999.9999999999999 /\
  (999.9999999999999 <? 1000) = true /\
  exists p : Q,
    Binary64.to_Q 52.63157894736842 = Some p /\
    (0 < p)%Q /\
    Legacy.calculate_servers_needed 1000%Q p = Ok (inject_Z 20) /\
    Current.calculate_servers_needed 1000%Q p = Ok (inject_Z 20) /\
    (inject_Z 19 * p < 1000)%Q.
Proof.
  split; [vm_compute; reflexivity|].
  split; [vm_compute; reflexivity|].
  split; [vm_compute; reflexivity|].
  split; [vm_compute; reflexivity|].
  eexists. split; [vm_compute; reflexivity|].
  split; [vm_compute; reflexivity|].
  split; [vm_compute; reflexivity|].
  split; vm_compute; reflexivity.
Qed.

(** C2, the two groupings on one input.  Frontend, cache and backend
    latency 0.08, 0.00000001 and 10, network latency 1, processing latency
    0.5, and the hit rate of fifty cache servers: the legacy script returns
    14.57976449, the current one 14.579764489999999. *)
Lemma average_latency_variants_differ_in_binary64 :
  Binary64.Legacy.calculate_cache_hit_rate Binary64.Legacy.DRAM 50
  = 2.048e-05 /\
  Binary64.Current.calculate_cache_hit_rate Binary64.Current.system_file
    Binary64.Current.cache_file 50 = 2.048e-05 /\
  (Binary64.Current.latency Binary64.Current.frontend_file
   = Binary64.Legacy.latency Binary64.Legacy.low_performance /\
   Binary64.Current.latency Binary64.Current.cache_file
   = Binary64.Legacy.latency Binary64.Legacy.DRAM /\
   Binary64.Current.latency Binary64.Current.backend_file
   = Binary64.Legacy.latency Binary64.Legacy.glass /\
   Binary64.Current.network
     (Binary64.Current.sys_latency Binary64.Current.system_file)
   = Binary64.Legacy.NETWORK_LATENCY /\
   Binary64.Current.processing
     (Binary64.Current.sys_latency Binary64.Current.system_file)
   = Binary64.Legacy.PROCESSING_LATENCY) /\
  Binary64.Legacy.calculate_average_latency Binary64.Legacy.low_performance
    Binary64.Legacy.DRAM Binary64.Legacy.glass 2.048e-05
  = 14.57976449 /\
  Binary64.Current.calculate_average_latency Binary64.Current.system_file
    Binary64.Current.frontend_file Binary64.Current.cache_file
    Binary64.Current.backend_file 2.048e-05
  = 14.579764489999999 /\
  (14.579764489999999 <? 14.57976449) = true.
Proof.
  split; [vm_compute; reflexivity|].
  split; [vm_compute; reflexivity|].
  split; [repeat split|].
  split; [vm_compute; reflexivity|].
  split; vm_compute; reflexivity.
Qed.

(** C10.  A current run for 1000 requests per second on a frontend file
    with [throughput] 52.63157894736842 (cache 20, backend 5): the tiers
    are sized 19, 50 and 200 servers, their aggregates are
    999.9999999999999, 1000 and 1000, and the peak throughput the run
    writes is 999.9999999999999, below the SLO throughput, although every
    figure is positive. *)
Theorem peak_throughput_binary64_misses_slo :
  ((0 <? 1000) = true /\
   (0 <? Binary64.Current.throughput Binary64.Current.frontend_file) = true /\
   (0 <? Binary64.Current.throughput Binary64.Current.cache_file) = true /\
   (0 <? Binary64.Current.throughput Binary64.Current.backend_file) = true) /\
  Binary64.Current.calculate_servers_needed 1000
    (Binary64.Current.throughput Binary64.Current.frontend_file) = Ok 19 /\
  Binary64.Current.calculate_servers_needed 1000
    (Binary64.Current.throughput Binary64.Current.cache_file) = Ok 50 /\
  Binary64.Current.calculate_servers_needed 1000
    (Binary64.Current.throughput Binary64.Current.backend_file) = Ok 200 /\
  Binary64.Current.calculate_peak_throughput
    (Binary64.Current.calculate_total_throughput
       Binary64.Current.frontend_file 19)
    (Binary64.Current.calculate_total_throughput
       Binary64.Current.cache_file 50)
    (Binary64.Current.calculate_total_throughput
       Binary64.Current.backend_file 200)
  = 999.9999999999999 /\
  (999.9999999999999 <? 1000) = true.
Proof.
  split; [repeat split|].
  split; [vm_compute; reflexivity|].
  split; [vm_compute; reflexivity|].
  split; [vm_compute; reflexivity|].
  split; vm_compute; reflexivity.
Qed.

End Binary64Evaluations.
